(** * FitnessPlus: the business logic of [index.tsx]

    A shallow embedding of the domain logic of the gym-membership page
    ([src/index.tsx]): the plan catalogue, the fee formula
    [FitnessBusinessLogic.calcularImporte], the registration handler
    [handleRegister], the removal handler, the start-up hydration, the
    [stats] aggregate and the [filteredSocios] search view.

    Conventions of the embedding.
    - A JavaScript string is a [string] whose characters are code units
      below 256 (Latin-1).  [===] on strings is [String.eqb].
    - The numbers [dni] and [edad] come out of [parseInt]: they are
      integer-valued or [NaN], hence the type [number] below.  A value
      beyond 2^53 is rounded by JavaScript to the nearest double; rounding
      is monotone and the constants 18, 2000000 and 59999999 are exact, so
      every comparison of the source gives the same answer on the integer.
      [-0] is identified with [0].
    - Prices and fees ([precio], [importe]) are IEEE 754 binary64 values:
      [float] with the kernel's [PrimFloat] operations, which round exactly
      as JavaScript's [*] and [+] do.
    - React state is passed explicitly: a handler takes the current
      [socios] and returns the next one.  [crypto.randomUUID()] is an
      argument of the handler. *)

From Stdlib Require Import ZArith List Bool String Ascii Floats Lia.
From Stdlib Require Import DecimalString DecimalPos.
Import ListNotations.

Set Warnings "-inexact-float".
Local Open Scope string_scope.
Local Open Scope Z_scope.

(** ** JavaScript numbers produced by [parseInt] *)

Inductive number : Type :=
| NaN : number
| Int : Z -> number.

(** [a < k] and [a > k] for an integer constant [k]; both are [false] on [NaN]. *)
Definition num_ltb (a : number) (k : Z) : bool :=
  match a with
  | NaN => false
  | Int z => z <? k
  end.

Definition num_gtb (a : number) (k : Z) : bool :=
  match a with
  | NaN => false
  | Int z => k <? z
  end.

(** ** Strings: [toLowerCase], [includes], [parseInt], [toString] *)

Module Js.

(** [toLowerCase] on Latin-1 text, where it works unit by unit.  (On
    other text it is context-sensitive, the final sigma say, and does not
    distribute over concatenation; the statements below use of it only
    that equal texts lower alike and what it does to digits and [-].)

    Upper-case code units of Latin-1: A-Z, and U+00C0..U+00DE except the
    multiplication sign U+00D7.  Each one lowers to the unit 32 above. *)
Definition isUpper (n : nat) : bool :=
  ((65 <=? n) && (n <=? 90) || (192 <=? n) && (n <=? 214)
   || (216 <=? n) && (n <=? 222))%nat.

Definition lowerChar (c : ascii) : ascii :=
  let n := nat_of_ascii c in
  if isUpper n then ascii_of_nat (n + 32) else c.

Fixpoint toLowerCase (s : string) : string :=
  match s with
  | EmptyString => EmptyString
  | String c s' => String (lowerChar c) (toLowerCase s')
  end.

(** [s.includes(sub)]: [sub] starts at some position of [s]. *)
Fixpoint includes (s sub : string) : bool :=
  String.prefix sub s
  || match s with
     | EmptyString => false
     | String _ s' => includes s' sub
     end.

(** White space skipped by [parseInt]: TAB, LF, VT, FF, CR, SP, NBSP. *)
Definition isWhiteSpace (c : ascii) : bool :=
  let n := nat_of_ascii c in
  ((9 <=? n) && (n <=? 13) || (n =? 32) || (n =? 160))%nat.

Fixpoint trimStart (s : string) : string :=
  match s with
  | String c s' => if isWhiteSpace c then trimStart s' else s
  | EmptyString => EmptyString
  end.

(** The value of [c] as a digit in radix [R] (10 or 16 here). *)
Definition digitValue (R : Z) (c : ascii) : option Z :=
  let n := Z.of_nat (nat_of_ascii c) in
  if (48 <=? n) && (n <=? 57) then Some (n - 48)
  else if (R =? 16) && (97 <=? n) && (n <=? 102) then Some (n - 87)
  else if (R =? 16) && (65 <=? n) && (n <=? 70) then Some (n - 55)
  else None.

(** The longest prefix of radix-[R] digits, read as an integer; [acc] is
    [None] until a digit has been seen. *)
Fixpoint readDigits (R : Z) (s : string) (acc : option Z) : option Z :=
  match s with
  | EmptyString => acc
  | String c s' =>
      match digitValue R c with
      | Some d =>
          readDigits R s' (Some (R * match acc with Some a => a | None => 0 end + d))
      | None => acc
      end
  end.

(** [parseInt(s)] with no radix argument: skip white space, read a sign,
    strip a [0x]/[0X] prefix (radix 16), read the digits; [NaN] when there
    is none. *)
Definition parseInt (s : string) : number :=
  let s0 := trimStart s in
  let '(sign, s1) :=
    match s0 with
    | String "-" s' => (-1, s')
    | String "+" s' => (1, s')
    | _ => (1, s0)
    end in
  let '(R, s2) :=
    match s1 with
    | String "0" (String "x" s') => (16, s')
    | String "0" (String "X" s') => (16, s')
    | _ => (10, s1)
    end in
  match readDigits R s2 None with
  | Some mathInt => Int (sign * mathInt)
  | None => NaN
  end.

(** [n.toString()] for the numbers of this model: the decimal digits with
    a leading [-] on negatives, and ["NaN"].  This is what JavaScript
    prints for an integer of magnitude below 2^53.  From 2^53 on the
    number is a rounded double, printed with its shortest digits (2^63 as
    9223372036854776000) and in exponent form from 10^21 on (1e+21):
    [decimal] does not follow it there, and the statements that depend on
    the digits of a [dni] bound it by [safeDni]. *)
Definition decimal (z : Z) : string :=
  NilZero.string_of_int (Z.to_int z).

Definition toString (n : number) : string :=
  match n with
  | NaN => "NaN"
  | Int z => decimal z
  end.

End Js.

(** ** The catalogue *)

Module Membresia.
Record t : Type := mk { id : string; precio : float; nombre : string }.
End Membresia.

Definition SEDES : list string := ["CBA"; "ROS"; "MDP"; "BUE"].

(** The second letter of the first plan's name is U+00E1. *)
Definition MEMBRESIAS : list Membresia.t :=
  [ Membresia.mk "BAS" 12000 (String "B" (String (ascii_of_nat 225) "sica"));
    Membresia.mk "STD" 18000 "Standard";
    Membresia.mk "PRE" 25000 "Premium" ].

Definition MAX_SOCIOS : nat := 390.

(** ** [FitnessBusinessLogic.calcularImporte] *)

Definition calcularImporte (edad : number) (membresiaId metodoPago : string) : float :=
  let membresia := find (fun m => (Membresia.id m =? membresiaId)%string) MEMBRESIAS in
  let costo := match membresia with
               | Some m => Membresia.precio m
               | None => 0%float
               end in
  let costo := if num_ltb edad 18 then (costo * 0.8)%float else costo in
  let costo := if (metodoPago =? "tarjeta")%string then (costo * 1.05)%float else costo in
  costo.

(** ** Members and the registration form *)

Module Socio.
Record t : Type := mk {
  id : string;
  nombre : string;
  dni : number;
  edad : number;
  sede : string;
  membresia : string;
  metodoPago : string;
  importe : float
}.
End Socio.

(** [formData]: every field is the text of its input. *)
Module Form.
Record t : Type := mk {
  nombre : string;
  dni : string;
  edad : string;
  sede : string;
  membresia : string;
  metodoPago : string
}.
End Form.

(** The two [alert]s of [handleRegister]:
    "Error: DNI invalido para el sistema ministerial." and
    "Alerta: Capacidad maxima excedida.". *)
Inductive Alert : Type :=
| InvalidNationalId
| CapacityExceeded.

(** What a call of [handleRegister] did: it returned on an [alert], or it
    stored [nuevo]. *)
Inductive Outcome : Type :=
| Rejected (reason : Alert)
| Registered (nuevo : Socio.t).

(** [dni < 2000000 || dni > 59999999] *)
Definition dniFueraDeRango (dni : number) : bool :=
  num_ltb dni 2000000 || num_gtb dni 59999999.

(** ** [handleRegister]

    Returns the outcome and the next value of [socios] ([setSocios] is only
    reached on the last path).  [uuid] is the result of
    [crypto.randomUUID()]. *)
Definition handleRegister (uuid : string) (formData : Form.t) (socios : list Socio.t)
  : Outcome * list Socio.t :=
  let dni := Js.parseInt (Form.dni formData) in
  let edad := Js.parseInt (Form.edad formData) in
  if dniFueraDeRango dni then (Rejected InvalidNationalId, socios)
  else if (MAX_SOCIOS <=? List.length socios)%nat then (Rejected CapacityExceeded, socios)
  else
    let nuevo :=
      Socio.mk uuid (Form.nombre formData) dni edad (Form.sede formData)
        (Form.membresia formData) (Form.metodoPago formData)
        (calcularImporte edad (Form.membresia formData) (Form.metodoPago formData)) in
    (Registered nuevo, nuevo :: socios).

(** ** Removal: [onClick={() => setSocios(socios.filter(x => x.id !== s.id))}]

    The handler is an arrow function whose value is the value of the
    [setSocios] call, and a state setter returns [undefined]. *)
Inductive value : Type :=
| Undefined
| Boolean (b : bool).

Definition removeSocio (id : string) (socios : list Socio.t) : value * list Socio.t :=
  (Undefined, filter (fun x => negb (Socio.id x =? id)%string) socios).

(** ** Hydration: [if (saved) setSocios(JSON.parse(saved))]

    [saved] is the parsed snapshot, [None] when the store has no entry.  A
    snapshot is taken to be a list of well-typed records, as the page
    itself writes them; nothing in it is checked. *)
Definition hydrate (saved : option (list Socio.t)) (socios : list Socio.t) : list Socio.t :=
  match saved with
  | Some snapshot => snapshot
  | None => socios
  end.

(** ** The registry as a state machine *)

Inductive Action : Type :=
| Hydrate (saved : option (list Socio.t))
| Register (uuid : string) (formData : Form.t)
| Remove (id : string).

Definition step (socios : list Socio.t) (a : Action) : list Socio.t :=
  match a with
  | Hydrate saved => hydrate saved socios
  | Register uuid formData => snd (handleRegister uuid formData socios)
  | Remove id => snd (removeSocio id socios)
  end.

Definition run (actions : list Action) (socios : list Socio.t) : list Socio.t :=
  fold_left step actions socios.

(** ** [stats] *)

Module Stats.
Record sedeStat : Type := mkSede { name : string; count : nat; income : float }.
Record t : Type := mk {
  totalRecaudado : float;
  totalSocios : nat;
  sedeBreakdown : list sedeStat
}.
End Stats.

(** [l.reduce((acc, s) => acc + s.importe, 0)] *)
Definition sumImporte (l : list Socio.t) : float :=
  fold_left (fun acc s => (acc + Socio.importe s)%float) l 0%float.

Definition stats (socios : list Socio.t) : Stats.t :=
  let totalRecaudado := sumImporte socios in
  let sedeBreakdown :=
    map (fun sede =>
           let sSede := filter (fun s => (Socio.sede s =? sede)%string) socios in
           Stats.mkSede sede (List.length sSede) (sumImporte sSede))
        SEDES in
  let totalSocios := List.length socios in
  Stats.mk totalRecaudado totalSocios sedeBreakdown.

(** ** [filteredSocios] *)

Definition filteredSocios (socios : list Socio.t) (searchQuery : string) : list Socio.t :=
  filter (fun s =>
            Js.includes (Js.toLowerCase (Socio.nombre s)) (Js.toLowerCase searchQuery)
            || Js.includes (Js.toString (Socio.dni s)) searchQuery)
         socios.

(** ** The fee formula as the specification words it

    Base price, times 0.8 for a member under 18, then times 1.05 for a
    card payment, in this order. *)

Definition youthDiscount (minor : bool) (amount : float) : float :=
  if minor then (amount * 0.8)%float else amount.

Definition cardSurcharge (card : bool) (amount : float) : float :=
  if card then (amount * 1.05)%float else amount.

Definition computeFee_spec (basePrice : float) (minor card : bool) : float :=
  cardSurcharge card (youthDiscount minor basePrice).

(** A plan id that no entry of the catalogue carries. *)
Definition unknownPlan (membresiaId : string) : Prop :=
  forall m, In m MEMBRESIAS -> Membresia.id m <> membresiaId.

(** ** Vocabulary of the statements about registration *)

(** The member that [handleRegister] builds from the form. *)
Definition nuevoSocio (uuid : string) (formData : Form.t) : Socio.t :=
  let edad := Js.parseInt (Form.edad formData) in
  Socio.mk uuid (Form.nombre formData) (Js.parseInt (Form.dni formData)) edad
    (Form.sede formData) (Form.membresia formData) (Form.metodoPago formData)
    (calcularImporte edad (Form.membresia formData) (Form.metodoPago formData)).

(** The form's [dni] text passes the range test of [handleRegister]. *)
Definition dniAceptado (formData : Form.t) : Prop :=
  dniFueraDeRango (Js.parseInt (Form.dni formData)) = false.

Definition ids (socios : list Socio.t) : list string := map Socio.id socios.

(** An action that is not a hydration. *)
Definition isMutation (a : Action) : Prop :=
  match a with
  | Hydrate _ => False
  | _ => True
  end.

(** Pairwise distinct strings, as a test. *)
Fixpoint distinctb (l : list string) : bool :=
  match l with
  | [] => true
  | x :: l' => negb (existsb (String.eqb x) l') && distinctb l'
  end.

(** The member's [dni] is an integer of the ministerial range. *)
Definition dniEnRango (s : Socio.t) : Prop :=
  exists z, Socio.dni s = Int z /\ 2000000 <= z <= 59999999.

(** An action that cannot bring an out-of-range [dni] by itself: a
    hydration from a snapshot whose members are in range, a registration
    whose [dni] text reads as a number, any removal. *)
Definition trusted (a : Action) : Prop :=
  match a with
  | Hydrate (Some snapshot) => Forall dniEnRango snapshot
  | Hydrate None => True
  | Register _ formData => Js.parseInt (Form.dni formData) <> NaN
  | Remove _ => True
  end.

(** ** Vocabulary of the statements about the report and the search *)

(** The fees of the members of [sede], added from left to right to 0. *)
Definition incomeAt (sede : string) (socios : list Socio.t) : float :=
  fold_left (fun acc s => if (Socio.sede s =? sede)%string
                          then (acc + Socio.importe s)%float else acc)
            socios 0%float.

(** [sub] occurs in [s]. *)
Definition Substring (sub s : string) : Prop :=
  exists pre post, s = pre ++ sub ++ post.

(** [query] occurs in [s] when case is ignored. *)
Definition CISubstring (query s : string) : Prop :=
  Substring (Js.toLowerCase query) (Js.toLowerCase s).

(** The search of the specification: the query occurs, case ignored, in
    the name or in the decimal form of the [dni]. *)
Definition Matches (query : string) (s : Socio.t) : Prop :=
  CISubstring query (Socio.nombre s)
  \/ exists z, Socio.dni s = Int z /\ CISubstring query (Js.decimal z).

(** The search as the code makes it: the lowered query occurs in the
    lowered name, or the query as typed occurs in the text of the [dni]. *)
Definition MatchesAsTyped (query : string) (s : Socio.t) : Prop :=
  CISubstring query (Socio.nombre s)
  \/ Substring query (Js.toString (Socio.dni s)).

(** The search with case ignored on both sides, the text of the [dni]
    being whatever [toString] prints. *)
Definition MatchesAnyCase (query : string) (s : Socio.t) : Prop :=
  CISubstring query (Socio.nombre s)
  \/ CISubstring query (Js.toString (Socio.dni s)).

(** The member's [dni] is an integer that a double holds exactly and
    that prints as its plain decimal digits. *)
Definition safeDni (s : Socio.t) : Prop :=
  exists z, Socio.dni s = Int z /\ Z.abs z < 2 ^ 53.

(** [Kept P l l']: [l'] is [l] with exactly the elements that satisfy [P],
    in the order of [l]. *)
Inductive Kept {A : Type} (P : A -> Prop) : list A -> list A -> Prop :=
| Kept_nil : Kept P [] []
| Kept_take x l l' : P x -> Kept P l l' -> Kept P (x :: l) (x :: l')
| Kept_skip x l l' : ~ P x -> Kept P l l' -> Kept P (x :: l) l'.

(** The characters of a decimal numeral: the digits and the minus sign. *)
Definition plainb (c : ascii) : bool :=
  let n := nat_of_ascii c in
  ((48 <=? n) && (n <=? 57) || (n =? 45))%nat.

Fixpoint allPlainb (s : string) : bool :=
  match s with
  | EmptyString => true
  | String c s' => plainb c && allPlainb s'
  end.

(** The 256 code units. *)
Definition allAscii : list ascii := map ascii_of_nat (seq 0 256).

(** Lowering a code unit never yields a plain character out of another
    one, checked on every pair. *)
Definition lowerChar_plain_table : bool :=
  forallb (fun c =>
             forallb (fun c' =>
                        implb (plainb c)
                          (Bool.eqb (Ascii.eqb (Js.lowerChar c') c) (Ascii.eqb c' c)))
                     allAscii)
          allAscii.

(** The member's [dni] is a number. *)
Definition numericDni (s : Socio.t) : Prop := Socio.dni s <> NaN.

(** ** Sample data *)

Definition formEjemplo : Form.t :=
  Form.mk "Marcelo Alexander Sosa" "30123456" "25" "CBA" "BAS" "efectivo".

(** [n] registrations of [formEjemplo] under the ids "0", "1", ... *)
Definition altas (n : nat) : list Action :=
  map (fun k => Register (Js.decimal (Z.of_nat k)) formEjemplo) (seq 0 n).

(** A registry at capacity, built by 390 registrations. *)
Definition padronLleno : list Socio.t := run (altas 390) [].

(** A form whose name was left empty. *)
Definition formSinNombre : Form.t :=
  Form.mk EmptyString "30123456" "25" "CBA" "BAS" "efectivo".

(** A stored record whose [dni] is 1. *)
Definition socioDniUno : Socio.t :=
  Socio.mk "a1" "Ana" (Int 1) (Int 30) "CBA" "BAS" "efectivo" 12000.

(** A form whose [dni] was left empty. *)
Definition formSinDni : Form.t :=
  Form.mk "Luis" EmptyString "30" "CBA" "BAS" "efectivo".

(** Three members: two in CBA, one in MDP. *)
Definition padronEjemplo : list Socio.t :=
  run [Register "u1" formEjemplo;
       Register "u2" (Form.mk "Lucia Perez" "41000222" "16" "MDP" "PRE" "tarjeta");
       Register "u3" (Form.mk "MARCELA Diaz" "28555000" "40" "CBA" "STD" "tarjeta")] [].

(** ** The fee preview of the form

    [FitnessBusinessLogic.calcularImporte(parseInt(formData.edad) || 0,
    formData.membresia, formData.metodoPago)], the number that the form
    shows (through [toFixed(0)]) above its submit button. *)

(** [NaN] and [0] are the falsy numbers. *)
Definition truthy (n : number) : bool :=
  match n with
  | NaN => false
  | Int z => negb (z =? 0)
  end.

(** [n || 0] *)
Definition orZero (n : number) : number :=
  if truthy n then n else Int 0.

Definition importeProyectado (formData : Form.t) : float :=
  calcularImporte (orZero (Js.parseInt (Form.edad formData)))
    (Form.membresia formData) (Form.metodoPago formData).

(** ** Vocabulary of the further statements *)

(** A batch of submissions: the id drawn for each and the form sent. *)
Definition registros (reqs : list (string * Form.t)) : list Action :=
  map (fun r => Register (fst r) (snd r)) reqs.

(** The submission passes the range test of [handleRegister]. *)
Definition pasaRango (r : string * Form.t) : bool :=
  negb (dniFueraDeRango (Js.parseInt (Form.dni (snd r)))).

Definition nuevoDe (r : string * Form.t) : Socio.t :=
  nuevoSocio (fst r) (snd r).

(** The amounts [calcularImporte] can return. *)
Definition importesPosibles : list float :=
  [0; 9600; 10080; 12000; 12600; 14400; 15120; 18000; 18900; 20000; 21000;
   25000; 26250]%float.

(** The member's [sede] is one of [SEDES]. *)
Definition sedeConocida (s : Socio.t) : bool :=
  existsb (fun sede => (Socio.sede s =? sede)%string) SEDES.

(** A decimal digit, and a string of decimal digits. *)
Definition digitb (c : ascii) : bool :=
  let n := nat_of_ascii c in ((48 <=? n) && (n <=? 57))%nat.

Fixpoint allDigitsb (s : string) : bool :=
  match s with
  | EmptyString => true
  | String c s' => digitb c && allDigitsb s'
  end.

(** The test of [filteredSocios] on one member. *)
Definition searchTest (searchQuery : string) (s : Socio.t) : bool :=
  Js.includes (Js.toLowerCase (Socio.nombre s)) (Js.toLowerCase searchQuery)
  || Js.includes (Js.toString (Socio.dni s)) searchQuery.

(** What may follow the digits of a number for [parseInt] to stop there:
    nothing, or a character that is neither a digit nor the [x] of a
    hexadecimal prefix. *)
Definition stopsDigits (rest : string) : bool :=
  match rest with
  | EmptyString => true
  | String c _ => negb (digitb c) && negb (Ascii.eqb c "x") && negb (Ascii.eqb c "X")
  end.

(** The integer read from the digits [d] after the integer [a]. *)
Definition digitsAfter (a : Z) (d : Decimal.uint) : Z :=
  a * 10 ^ Z.of_N (Unsigned.usize d) + Z.of_N (Unsigned.of_lu (Decimal.rev d)).

(** ** Facts about the catalogue and the fee *)

Lemma dniFueraDeRango_Int (z : Z) :
  dniFueraDeRango (Int z) = true <-> z < 2000000 \/ 59999999 < z.
Proof.
  unfold dniFueraDeRango, num_ltb, num_gtb.
  rewrite orb_true_iff, !Z.ltb_lt. reflexivity.
Qed.

Lemma dniFueraDeRango_Int_false (z : Z) :
  dniFueraDeRango (Int z) = false <-> 2000000 <= z <= 59999999.
Proof.
  unfold dniFueraDeRango, num_ltb, num_gtb.
  rewrite orb_false_iff, !Z.ltb_ge. lia.
Qed.

Lemma find_unknownPlan (membresiaId : string) :
  unknownPlan membresiaId ->
  find (fun m => (Membresia.id m =? membresiaId)%string) MEMBRESIAS = None.
Proof.
  intros Hu.
  destruct (find _ MEMBRESIAS) as [m|] eqn:Hf; [|reflexivity].
  apply find_some in Hf. destruct Hf as [Hin Heq].
  apply String.eqb_eq in Heq. exfalso. exact (Hu m Hin Heq).
Qed.

Lemma calcularImporte_unknownPlan (edad : number) (membresiaId metodoPago : string) :
  unknownPlan membresiaId ->
  calcularImporte edad membresiaId metodoPago = 0%float.
Proof.
  intros Hu. unfold calcularImporte.
  rewrite (find_unknownPlan _ Hu).
  destruct (num_ltb edad 18), (metodoPago =? "tarjeta")%string; reflexivity.
Qed.

(** The twelve fees of the catalogue: under 18 / adult, cash / card. *)
Example calcularImporte_table :
  map (fun e => map (fun m => map (calcularImporte e (Membresia.id m))
                                  ["efectivo"; "tarjeta"]) MEMBRESIAS)
      [Int 17; Int 18]
  = [ [ [9600; 10080]; [14400; 15120]; [20000; 21000] ];
      [ [12000; 12600]; [18000; 18900]; [25000; 26250] ] ]%float.
Proof. reflexivity. Qed.

(** C1. For every age, plan of the catalogue and payment method,
    [calcularImporte] is the plan's price, multiplied by 0.8 when the age
    is under 18, and then multiplied by 1.05 when the payment is by card:
    the discount is applied first, the surcharge to the discounted amount,
    and each condition is tested whatever the other one gave.  In
    particular an age under 18 paying by card owes price * 0.8 * 1.05. *)
Theorem calcularImporte_discount_then_surcharge :
  forall (edad : number) (m : Membresia.t) (metodoPago : string),
    In m MEMBRESIAS ->
    calcularImporte edad (Membresia.id m) metodoPago
    = computeFee_spec (Membresia.precio m) (num_ltb edad 18)
        (metodoPago =? "tarjeta")%string
    /\ (forall z, edad = Int z -> z < 18 ->
        calcularImporte edad (Membresia.id m) "tarjeta"
        = (Membresia.precio m * 0.8 * 1.05)%float).
Proof.
  intros edad m metodoPago Hin.
  assert (Hfind : find (fun x => (Membresia.id x =? Membresia.id m)%string) MEMBRESIAS
                  = Some m).
  { simpl in Hin. destruct Hin as [<-|[<-|[<-|[]]]]; reflexivity. }
  split.
  - unfold calcularImporte, computeFee_spec, cardSurcharge, youthDiscount.
    rewrite Hfind. reflexivity.
  - intros z -> Hz. unfold calcularImporte. rewrite Hfind.
    simpl num_ltb. apply Z.ltb_lt in Hz. rewrite Hz. reflexivity.
Qed.

Lemma calcularImporte_discount_then_surcharge_witness :
  In (Membresia.mk "STD" 18000 "Standard") MEMBRESIAS
  /\ calcularImporte (Int 17) "STD" "tarjeta" = 15120%float.
Proof.
  split.
  - simpl. auto.
  - exact (proj2 (calcularImporte_discount_then_surcharge (Int 17)
             (Membresia.mk "STD" 18000 "Standard") "tarjeta"
             (or_intror (or_introl eq_refl)))
             17 eq_refl eq_refl).
Defined.

(** C6. A plan id that is not in the catalogue has base price 0: the fee
    is 0 for every age and payment method, nothing is reported, and a
    registration naming such a plan is stored (with fee 0) whenever its
    [dni] and the capacity allow it. *)
Theorem unknown_plan_fee_is_zero :
  forall membresiaId : string,
    unknownPlan membresiaId ->
    (forall edad metodoPago, calcularImporte edad membresiaId metodoPago = 0%float)
    /\ (forall uuid formData socios,
           Form.membresia formData = membresiaId ->
           dniAceptado formData ->
           (List.length socios < MAX_SOCIOS)%nat ->
           handleRegister uuid formData socios
           = (Registered (nuevoSocio uuid formData), nuevoSocio uuid formData :: socios)
           /\ Socio.importe (nuevoSocio uuid formData) = 0%float).
Proof.
  intros membresiaId Hu. split.
  - intros edad metodoPago. now apply calcularImporte_unknownPlan.
  - intros uuid formData socios Hm Hd Hlen.
    unfold dniAceptado in Hd. unfold handleRegister. rewrite Hd.
    apply Nat.leb_gt in Hlen. rewrite Hlen. split; [reflexivity|].
    unfold nuevoSocio. simpl. rewrite Hm. now apply calcularImporte_unknownPlan.
Qed.

Lemma unknown_plan_fee_is_zero_witness :
  unknownPlan "VIP"
  /\ calcularImporte (Int 15) "VIP" "tarjeta" = 0%float.
Proof.
  assert (Hu : unknownPlan "VIP").
  { intros m Hin. simpl in Hin. destruct Hin as [<-|[<-|[<-|[]]]]; discriminate. }
  split.
  - exact Hu.
  - exact (proj1 (unknown_plan_fee_is_zero "VIP" Hu) (Int 15) "tarjeta").
Defined.

(** The surcharge changes every fee of the catalogue. *)
Lemma surcharge_changes_catalogue_fee (minor : bool) (m : Membresia.t) :
  In m MEMBRESIAS ->
  (youthDiscount minor (Membresia.precio m) * 1.05)%float
  <> youthDiscount minor (Membresia.precio m).
Proof.
  intros Hin. simpl in Hin.
  destruct Hin as [<-|[<-|[<-|[]]]]; destruct minor;
    cbn [Membresia.precio youthDiscount]; intros H;
    match type of H with
    | ?a = ?b => apply (f_equal (fun x => PrimFloat.ltb b x)) in H
    end;
    vm_compute in H; discriminate H.
Qed.

Lemma calcularImporte_catalogue (edad : number) (m : Membresia.t) (metodoPago : string) :
  In m MEMBRESIAS ->
  calcularImporte edad (Membresia.id m) metodoPago
  = cardSurcharge (metodoPago =? "tarjeta")%string
      (youthDiscount (num_ltb edad 18) (Membresia.precio m)).
Proof.
  intros Hin.
  assert (Hfind : find (fun x => (Membresia.id x =? Membresia.id m)%string) MEMBRESIAS
                  = Some m).
  { simpl in Hin. destruct Hin as [<-|[<-|[<-|[]]]]; reflexivity. }
  unfold calcularImporte, cardSurcharge, youthDiscount. rewrite Hfind. reflexivity.
Qed.

(** C10. The surcharge is applied exactly when [metodoPago] is the string
    "tarjeta": every other string, "card" and "TARJETA" among them, gives
    the cash fee, and "tarjeta" gives the cash fee times 1.05.  On a plan
    of the catalogue the cash fee is the price, discounted under 18, the
    card fee is that amount times 1.05, and the fee differs from the cash
    fee exactly when the payment text is "tarjeta"; an adult on the basic
    plan owes 12600 by "tarjeta" and 12000 by "card", "TARJETA" or
    "efectivo". *)
Theorem surcharge_only_for_tarjeta :
  forall (edad : number) (membresiaId metodoPago : string),
    calcularImporte edad membresiaId metodoPago
    = cardSurcharge (metodoPago =? "tarjeta")%string
        (calcularImporte edad membresiaId "efectivo")
    /\ (metodoPago <> "tarjeta" ->
        calcularImporte edad membresiaId metodoPago
        = calcularImporte edad membresiaId "efectivo")
    /\ calcularImporte edad membresiaId "tarjeta"
       = (calcularImporte edad membresiaId "efectivo" * 1.05)%float
    /\ calcularImporte edad membresiaId "card"
       = calcularImporte edad membresiaId "efectivo"
    /\ calcularImporte edad membresiaId "TARJETA"
       = calcularImporte edad membresiaId "efectivo"
    /\ (forall m, In m MEMBRESIAS -> membresiaId = Membresia.id m ->
          calcularImporte edad membresiaId "efectivo"
          = youthDiscount (num_ltb edad 18) (Membresia.precio m)
          /\ calcularImporte edad membresiaId "tarjeta"
             = (youthDiscount (num_ltb edad 18) (Membresia.precio m) * 1.05)%float
          /\ (calcularImporte edad membresiaId metodoPago
              <> calcularImporte edad membresiaId "efectivo"
              <-> metodoPago = "tarjeta"))
    /\ map (calcularImporte (Int 30) "BAS") ["tarjeta"; "card"; "TARJETA"; "efectivo"]
       = [12600; 12000; 12000; 12000]%float.
Proof.
  intros edad membresiaId metodoPago.
  split; [|split; [|split; [|split; [|split; [|split]]]]].
  - unfold calcularImporte, cardSurcharge.
    destruct (metodoPago =? "tarjeta")%string; reflexivity.
  - intros Hne. apply String.eqb_neq in Hne.
    unfold calcularImporte. rewrite Hne. reflexivity.
  - reflexivity.
  - reflexivity.
  - reflexivity.
  - intros m Hin ->.
    rewrite !(calcularImporte_catalogue edad m _ Hin).
    change ("efectivo" =? "tarjeta")%string with false.
    change ("tarjeta" =? "tarjeta")%string with true.
    cbn [cardSurcharge].
    split; [reflexivity|]. split; [reflexivity|].
    destruct (metodoPago =? "tarjeta")%string eqn:E.
    + apply String.eqb_eq in E. split; [intros _; exact E|intros _].
      now apply surcharge_changes_catalogue_fee.
    + apply String.eqb_neq in E. split; [intros H; now elim H|contradiction].
  - reflexivity.
Qed.

Lemma surcharge_only_for_tarjeta_witness :
  "debito" <> "tarjeta"
  /\ In (Membresia.mk "PRE" 25000 "Premium") MEMBRESIAS
  /\ calcularImporte (Int 30) "PRE" "debito" = calcularImporte (Int 30) "PRE" "efectivo"
  /\ calcularImporte (Int 30) "PRE" "efectivo" = 25000%float
  /\ calcularImporte (Int 30) "PRE" "tarjeta" = 26250%float
  /\ calcularImporte (Int 30) "PRE" "tarjeta" <> calcularImporte (Int 30) "PRE" "efectivo".
Proof.
  assert (Hne : "debito" <> "tarjeta") by discriminate.
  assert (Hin : In (Membresia.mk "PRE" 25000 "Premium") MEMBRESIAS)
    by (simpl; auto).
  split; [exact Hne|]. split; [exact Hin|]. split; [|split; [|split]].
  - exact (proj1 (proj2 (surcharge_only_for_tarjeta (Int 30) "PRE" "debito")) Hne).
  - exact (proj1 (proj1 (proj2 (proj2 (proj2 (proj2 (proj2
             (surcharge_only_for_tarjeta (Int 30) "PRE" "debito"))))))
             (Membresia.mk "PRE" 25000 "Premium") Hin eq_refl)).
  - exact (proj1 (proj2 (proj1 (proj2 (proj2 (proj2 (proj2 (proj2
             (surcharge_only_for_tarjeta (Int 30) "PRE" "debito"))))))
             (Membresia.mk "PRE" 25000 "Premium") Hin eq_refl))).
  - exact (proj2 (proj2 (proj2 (proj1 (proj2 (proj2 (proj2 (proj2 (proj2
             (surcharge_only_for_tarjeta (Int 30) "PRE" "tarjeta"))))))
             (Membresia.mk "PRE" 25000 "Premium") Hin eq_refl))) eq_refl).
Defined.

(** ** [handleRegister], path by path *)

Lemma handleRegister_invalid (uuid : string) (formData : Form.t) (socios : list Socio.t) :
  dniFueraDeRango (Js.parseInt (Form.dni formData)) = true ->
  handleRegister uuid formData socios = (Rejected InvalidNationalId, socios).
Proof. intros H. unfold handleRegister. rewrite H. reflexivity. Qed.

Lemma handleRegister_full (uuid : string) (formData : Form.t) (socios : list Socio.t) :
  dniAceptado formData ->
  (MAX_SOCIOS <= List.length socios)%nat ->
  handleRegister uuid formData socios = (Rejected CapacityExceeded, socios).
Proof.
  intros Hd Hlen. unfold handleRegister. rewrite Hd.
  apply Nat.leb_le in Hlen. rewrite Hlen. reflexivity.
Qed.

Lemma handleRegister_stored (uuid : string) (formData : Form.t) (socios : list Socio.t) :
  dniAceptado formData ->
  (List.length socios < MAX_SOCIOS)%nat ->
  handleRegister uuid formData socios
  = (Registered (nuevoSocio uuid formData), nuevoSocio uuid formData :: socios).
Proof.
  intros Hd Hlen. unfold handleRegister. rewrite Hd.
  apply Nat.leb_gt in Hlen. rewrite Hlen. reflexivity.
Qed.

(** A [dni] text that does not read as a number gives [NaN], on which both
    comparisons of the range test are false. *)
Example dniFueraDeRango_NaN :
  Js.parseInt EmptyString = NaN /\ dniFueraDeRango NaN = false.
Proof. split; reflexivity. Qed.

(** Every call takes one of the three paths. *)
Lemma handleRegister_cases (uuid : string) (formData : Form.t) (socios : list Socio.t) :
  handleRegister uuid formData socios = (Rejected InvalidNationalId, socios)
  \/ handleRegister uuid formData socios = (Rejected CapacityExceeded, socios)
  \/ ((List.length socios < MAX_SOCIOS)%nat
      /\ handleRegister uuid formData socios
         = (Registered (nuevoSocio uuid formData), nuevoSocio uuid formData :: socios)).
Proof.
  destruct (dniFueraDeRango (Js.parseInt (Form.dni formData))) eqn:Hd.
  - left. now apply handleRegister_invalid.
  - destruct (Nat.le_gt_cases MAX_SOCIOS (List.length socios)) as [Hlen|Hlen].
    + right; left. now apply handleRegister_full.
    + right; right. split; [exact Hlen|]. now apply handleRegister_stored.
Qed.

Lemma handleRegister_length (uuid : string) (formData : Form.t) (socios : list Socio.t) :
  (List.length socios <= MAX_SOCIOS)%nat ->
  (List.length (snd (handleRegister uuid formData socios)) <= MAX_SOCIOS)%nat.
Proof.
  intros Hlen.
  destruct (handleRegister_cases uuid formData socios) as [E|[E|[Hlt E]]];
    rewrite E; simpl; lia.
Qed.

(** C4 (as the code has it). [handleRegister] makes two checks, in this
    order, and returns on the first that fails: the range of the [dni]
    (rejected as invalid, also on a full registry), then the capacity.
    A request that passes both is stored.  No check looks at the name or
    the age: two forms with the same [dni] text are rejected alike. *)
Theorem validation_order :
  forall (uuid : string) (formData : Form.t) (socios : list Socio.t),
    (dniFueraDeRango (Js.parseInt (Form.dni formData)) = true ->
     handleRegister uuid formData socios = (Rejected InvalidNationalId, socios))
    /\ (dniAceptado formData ->
        (MAX_SOCIOS <= List.length socios)%nat ->
        handleRegister uuid formData socios = (Rejected CapacityExceeded, socios))
    /\ (dniAceptado formData ->
        (List.length socios < MAX_SOCIOS)%nat ->
        handleRegister uuid formData socios
        = (Registered (nuevoSocio uuid formData), nuevoSocio uuid formData :: socios))
    /\ (forall (uuid' : string) (formData' : Form.t) (r : Alert),
           Form.dni formData' = Form.dni formData ->
           fst (handleRegister uuid' formData' socios) = Rejected r ->
           fst (handleRegister uuid formData socios) = Rejected r).
Proof.
  intros uuid formData socios.
  split; [|split; [|split]].
  - apply handleRegister_invalid.
  - apply handleRegister_full.
  - apply handleRegister_stored.
  - intros uuid' formData' r Hdni.
    unfold handleRegister. rewrite Hdni.
    destruct (dniFueraDeRango _); [trivial|].
    destruct (MAX_SOCIOS <=? List.length socios)%nat; [trivial|].
    simpl. discriminate.
Qed.

Lemma validation_order_witness :
  dniFueraDeRango (Js.parseInt "1234") = true
  /\ dniAceptado formEjemplo
  /\ (MAX_SOCIOS <= List.length padronLleno)%nat
  /\ (List.length padronEjemplo < MAX_SOCIOS)%nat
  /\ handleRegister "u1" (Form.mk "Ana" "1234" "30" "CBA" "BAS" "efectivo") padronLleno
     = (Rejected InvalidNationalId, padronLleno)
  /\ handleRegister "u1" formEjemplo padronLleno
     = (Rejected CapacityExceeded, padronLleno)
  /\ handleRegister "u4" formEjemplo padronEjemplo
     = (Registered (nuevoSocio "u4" formEjemplo),
        nuevoSocio "u4" formEjemplo :: padronEjemplo).
Proof.
  assert (Hd : dniFueraDeRango (Js.parseInt "1234") = true) by reflexivity.
  assert (Ha : dniAceptado formEjemplo) by reflexivity.
  assert (Hfull : (MAX_SOCIOS <= List.length padronLleno)%nat)
    by (vm_compute; reflexivity).
  assert (Hroom : (List.length padronEjemplo < MAX_SOCIOS)%nat)
    by (vm_compute; lia).
  split; [exact Hd|]. split; [exact Ha|]. split; [exact Hfull|].
  split; [exact Hroom|]. split; [|split].
  - exact (proj1 (validation_order "u1"
                    (Form.mk "Ana" "1234" "30" "CBA" "BAS" "efectivo") padronLleno) Hd).
  - exact (proj1 (proj2 (validation_order "u1" formEjemplo padronLleno)) Ha Hfull).
  - exact (proj1 (proj2 (proj2 (validation_order "u4" formEjemplo padronEjemplo)))
             Ha Hroom).
Defined.

(** C4, the claim as written fails: a form with an empty name and a valid
    [dni] is not rejected, it is stored. *)
Lemma empty_name_is_registered :
  Form.nombre formSinNombre = EmptyString
  /\ handleRegister "u1" formSinNombre []
     = (Registered (nuevoSocio "u1" formSinNombre), [nuevoSocio "u1" formSinNombre])
  /\ forall r, fst (handleRegister "u1" formSinNombre []) <> Rejected r.
Proof.
  split; [reflexivity|]. split; [reflexivity|].
  intros r. vm_compute. discriminate.
Qed.

(** C5. For a numeric [dni], the request is rejected as an invalid
    national id exactly when the number is below 2000000 or above
    59999999: 1999999 and 60000000 are rejected, 2000000 and 59999999
    pass the check and are stored when there is room. *)
Theorem dni_range_check :
  forall (uuid : string) (formData : Form.t) (socios : list Socio.t) (z : Z),
    Js.parseInt (Form.dni formData) = Int z ->
    (fst (handleRegister uuid formData socios) = Rejected InvalidNationalId
     <-> z < 2000000 \/ 59999999 < z)
    /\ (z = 1999999 \/ z = 60000000 ->
        handleRegister uuid formData socios = (Rejected InvalidNationalId, socios))
    /\ (z = 2000000 \/ z = 59999999 ->
        (List.length socios < MAX_SOCIOS)%nat ->
        handleRegister uuid formData socios
        = (Registered (nuevoSocio uuid formData), nuevoSocio uuid formData :: socios)
        /\ Socio.dni (nuevoSocio uuid formData) = Int z).
Proof.
  intros uuid formData socios z Hz.
  split; [|split].
  - rewrite <- dniFueraDeRango_Int, <- Hz.
    unfold handleRegister.
    destruct (dniFueraDeRango _).
    + simpl. split; reflexivity.
    + destruct (MAX_SOCIOS <=? List.length socios)%nat; simpl;
        split; discriminate.
  - intros Hb. apply handleRegister_invalid. rewrite Hz.
    apply dniFueraDeRango_Int. lia.
  - intros Hb Hlen. split.
    + apply handleRegister_stored; [|exact Hlen].
      unfold dniAceptado. rewrite Hz. apply dniFueraDeRango_Int_false. lia.
    + unfold nuevoSocio. simpl. exact Hz.
Qed.

Lemma dni_range_check_witness :
  Js.parseInt (Form.dni (Form.mk "Ana" "60000000" "30" "CBA" "BAS" "efectivo"))
  = Int 60000000
  /\ handleRegister "u1" (Form.mk "Ana" "60000000" "30" "CBA" "BAS" "efectivo") []
     = (Rejected InvalidNationalId, [])
  /\ Js.parseInt (Form.dni (Form.mk "Ana" "2000000" "30" "CBA" "BAS" "efectivo"))
     = Int 2000000
  /\ fst (handleRegister "u1" (Form.mk "Ana" "2000000" "30" "CBA" "BAS" "efectivo") [])
     = Registered (nuevoSocio "u1" (Form.mk "Ana" "2000000" "30" "CBA" "BAS" "efectivo")).
Proof.
  split; [reflexivity|]. split; [|split; [reflexivity|]].
  - exact (proj1 (proj2 (dni_range_check "u1"
             (Form.mk "Ana" "60000000" "30" "CBA" "BAS" "efectivo") [] 60000000
             eq_refl)) (or_intror eq_refl)).
  - assert (Hroom : (List.length (@nil Socio.t) < MAX_SOCIOS)%nat)
      by (vm_compute; lia).
    rewrite (proj1 (proj2 (proj2 (dni_range_check "u1"
               (Form.mk "Ana" "2000000" "30" "CBA" "BAS" "efectivo") [] 2000000
               eq_refl)) (or_introl eq_refl) Hroom)).
    reflexivity.
Defined.

(** ** Removal *)

Lemma removeSocio_value (id : string) (socios : list Socio.t) :
  fst (removeSocio id socios) = Undefined.
Proof. reflexivity. Qed.

Lemma removeSocio_absent (id : string) (socios : list Socio.t) :
  ~ In id (ids socios) ->
  snd (removeSocio id socios) = socios.
Proof.
  simpl. induction socios as [|s socios IH]; intros Hnot; simpl.
  - reflexivity.
  - destruct (Socio.id s =? id)%string eqn:E.
    + apply String.eqb_eq in E. exfalso. apply Hnot. left. exact E.
    + simpl. f_equal. apply IH. intros Hin. apply Hnot. right. exact Hin.
Qed.

Lemma removeSocio_length_le (id : string) (socios : list Socio.t) :
  (List.length (snd (removeSocio id socios)) <= List.length socios)%nat.
Proof.
  simpl. induction socios as [|s socios IH]; simpl.
  - lia.
  - destruct (negb (Socio.id s =? id)%string); simpl; lia.
Qed.

(** With pairwise distinct ids, removing a present id removes one member. *)
Lemma removeSocio_length_present (id : string) (socios : list Socio.t) :
  NoDup (ids socios) ->
  In id (ids socios) ->
  S (List.length (snd (removeSocio id socios))) = List.length socios.
Proof.
  induction socios as [|s socios IH]; intros Hnd Hin.
  - destruct Hin.
  - unfold ids in Hnd, Hin. simpl in Hnd, Hin.
    inversion Hnd as [|x l Hnotin Hnd']; subst.
    change (snd (removeSocio id (s :: socios)))
      with (if negb (Socio.id s =? id)%string
            then s :: snd (removeSocio id socios)
            else snd (removeSocio id socios)).
    destruct (Socio.id s =? id)%string eqn:E; simpl negb; cbv iota.
    + apply String.eqb_eq in E. subst id.
      rewrite (removeSocio_absent _ socios Hnotin). reflexivity.
    + apply String.eqb_neq in E.
      destruct Hin as [Hin|Hin]; [contradiction|].
      simpl List.length. f_equal. apply IH; assumption.
Qed.

Lemma distinctb_NoDup (l : list string) :
  distinctb l = true -> NoDup l.
Proof.
  induction l as [|x l IH]; simpl; intros H.
  - constructor.
  - apply andb_true_iff in H. destruct H as [Hx Hl].
    constructor; [|now apply IH].
    intros Hin. apply negb_true_iff in Hx.
    assert (Hex : existsb (String.eqb x) l = true).
    { apply existsb_exists. exists x. split; [exact Hin|apply String.eqb_refl]. }
    congruence.
Qed.

Lemma step_mutation_length (socios : list Socio.t) (a : Action) :
  isMutation a ->
  (List.length socios <= MAX_SOCIOS)%nat ->
  (List.length (step socios a) <= MAX_SOCIOS)%nat.
Proof.
  destruct a as [saved|uuid formData|id]; unfold step; intros Hm Hlen.
  - destruct Hm.
  - now apply handleRegister_length.
  - pose proof (removeSocio_length_le id socios). lia.
Qed.

Lemma run_mutations_length (actions : list Action) :
  forall socios,
    Forall isMutation actions ->
    (List.length socios <= MAX_SOCIOS)%nat ->
    (List.length (run actions socios) <= MAX_SOCIOS)%nat.
Proof.
  induction actions as [|a actions IH]; intros socios Hall Hlen.
  - exact Hlen.
  - inversion Hall; subst. simpl. apply IH; [assumption|].
    now apply step_mutation_length.
Qed.

(** C2. On a registry of exactly 390 members every registration is
    rejected and leaves the registry as it was, with the capacity alert
    when the [dni] passes its own check.  After one member is removed (ids
    being pairwise distinct) a valid registration is stored, and the one
    after it is rejected again.  Hence the size stays at most 390 across
    every registration, and on every registry built from the empty one by
    registrations and removals. *)
Theorem capacity_390 :
  (forall (socios : list Socio.t) (uuid : string) (formData : Form.t),
      List.length socios = MAX_SOCIOS ->
      snd (handleRegister uuid formData socios) = socios
      /\ (exists r, fst (handleRegister uuid formData socios) = Rejected r)
      /\ (dniAceptado formData ->
          fst (handleRegister uuid formData socios) = Rejected CapacityExceeded))
  /\ (forall (socios : list Socio.t) (id uuid : string) (formData : Form.t),
         List.length socios = MAX_SOCIOS ->
         NoDup (ids socios) ->
         In id (ids socios) ->
         dniAceptado formData ->
         let socios1 := snd (removeSocio id socios) in
         let nuevo := nuevoSocio uuid formData in
         handleRegister uuid formData socios1 = (Registered nuevo, nuevo :: socios1)
         /\ forall uuid' formData',
             snd (handleRegister uuid' formData' (nuevo :: socios1)) = nuevo :: socios1
             /\ (dniAceptado formData' ->
                 fst (handleRegister uuid' formData' (nuevo :: socios1))
                 = Rejected CapacityExceeded))
  /\ (forall (socios : list Socio.t) (uuid : string) (formData : Form.t),
         (List.length socios <= MAX_SOCIOS)%nat ->
         (List.length (snd (handleRegister uuid formData socios)) <= MAX_SOCIOS)%nat)
  /\ (forall actions : list Action,
         Forall isMutation actions ->
         (List.length (run actions []) <= MAX_SOCIOS)%nat).
Proof.
  assert (Hfull : forall socios uuid formData,
             List.length socios = MAX_SOCIOS ->
             snd (handleRegister uuid formData socios) = socios
             /\ (exists r, fst (handleRegister uuid formData socios) = Rejected r)
             /\ (dniAceptado formData ->
                 fst (handleRegister uuid formData socios) = Rejected CapacityExceeded)).
  { intros socios uuid formData Hlen.
    destruct (handleRegister_cases uuid formData socios) as [E|[E|[Hlt E]]].
    - rewrite E. simpl. split; [reflexivity|]. split; [eauto|].
      intros Hd. rewrite handleRegister_full in E by (assumption || lia).
      congruence.
    - rewrite E. simpl. split; [reflexivity|]. split; eauto.
    - lia. }
  split; [exact Hfull|]. split; [|split].
  - intros socios id uuid formData Hlen Hnd Hin Hd socios1 nuevo.
    pose proof (removeSocio_length_present id socios Hnd Hin) as Hrem.
    fold socios1 in Hrem.
    split.
    + apply handleRegister_stored; [exact Hd|]. lia.
    + intros uuid' formData'.
      destruct (Hfull (nuevo :: socios1) uuid' formData') as [H1 [_ H3]].
      * simpl. lia.
      * split; assumption.
  - intros socios uuid formData. apply handleRegister_length.
  - intros actions Hall. apply run_mutations_length; [exact Hall|].
    simpl. unfold MAX_SOCIOS. lia.
Qed.

Lemma capacity_390_witness :
  List.length padronLleno = MAX_SOCIOS
  /\ dniAceptado formEjemplo
  /\ handleRegister "u390" formEjemplo padronLleno
     = (Rejected CapacityExceeded, padronLleno)
  /\ NoDup (ids padronLleno)
  /\ In "389" (ids padronLleno)
  /\ handleRegister "u390" formEjemplo (snd (removeSocio "389" padronLleno))
     = (Registered (nuevoSocio "u390" formEjemplo),
        nuevoSocio "u390" formEjemplo :: snd (removeSocio "389" padronLleno)).
Proof.
  assert (Hlen : List.length padronLleno = MAX_SOCIOS) by (vm_compute; reflexivity).
  assert (Hd : dniAceptado formEjemplo) by reflexivity.
  assert (Hnd : NoDup (ids padronLleno))
    by (apply distinctb_NoDup; vm_compute; reflexivity).
  assert (Hin : In "389" (ids padronLleno)) by (vm_compute; left; reflexivity).
  split; [exact Hlen|]. split; [exact Hd|]. split; [|split; [exact Hnd|split; [exact Hin|]]].
  - destruct (proj1 capacity_390 padronLleno "u390" formEjemplo Hlen) as [H1 [_ H3]].
    rewrite (surjective_pairing (handleRegister "u390" formEjemplo padronLleno)).
    rewrite H1, (H3 Hd). reflexivity.
  - exact (proj1 (proj1 (proj2 capacity_390) padronLleno "389" "u390" formEjemplo
                    Hlen Hnd Hin Hd)).
Defined.

(** C9 (as the code has it). Removing an id that no member carries leaves
    the sequence of members exactly as it was; the handler is total and
    its value is [undefined], for an absent id as for a present one. *)
Theorem remove_absent_is_noop :
  forall (id : string) (socios : list Socio.t),
    fst (removeSocio id socios) = Undefined
    /\ (~ In id (ids socios) -> removeSocio id socios = (Undefined, socios)).
Proof.
  intros id socios. split.
  - apply removeSocio_value.
  - intros Hnot.
    rewrite (surjective_pairing (removeSocio id socios)).
    rewrite removeSocio_value, (removeSocio_absent id socios Hnot). reflexivity.
Qed.

Lemma remove_absent_is_noop_witness :
  ~ In "zz" (ids [nuevoSocio "u1" formEjemplo])
  /\ removeSocio "zz" [nuevoSocio "u1" formEjemplo]
     = (Undefined, [nuevoSocio "u1" formEjemplo]).
Proof.
  assert (Hnot : ~ In "zz" (ids [nuevoSocio "u1" formEjemplo])).
  { simpl. intros [H|[]]. discriminate H. }
  split.
  - exact Hnot.
  - exact (proj2 (remove_absent_is_noop "zz" [nuevoSocio "u1" formEjemplo]) Hnot).
Defined.

(** C9, the claim as written fails: for an id that is not in the registry
    the handler does not return [false]. *)
Lemma remove_absent_does_not_return_false :
  ~ In "zz" (ids [nuevoSocio "u1" formEjemplo])
  /\ fst (removeSocio "zz" [nuevoSocio "u1" formEjemplo]) <> Boolean false.
Proof.
  split.
  - simpl. intros [H|[]]. discriminate H.
  - simpl. discriminate.
Qed.

(** ** The range of the stored [dni] *)

Lemma step_dniEnRango (socios : list Socio.t) (a : Action) :
  Forall dniEnRango socios ->
  trusted a ->
  Forall dniEnRango (step socios a).
Proof.
  intros Hinv Ht. destruct a as [[snapshot|]|uuid formData|id]; unfold step.
  - exact Ht.
  - exact Hinv.
  - simpl in Ht.
    destruct (handleRegister_cases uuid formData socios) as [E|[E|[_ E]]];
      rewrite E; simpl; try exact Hinv.
    constructor; [|exact Hinv].
    (* the request was stored: its [dni] passed the range test *)
    assert (Hd : dniFueraDeRango (Js.parseInt (Form.dni formData)) = false).
    { unfold handleRegister in E.
      destruct (dniFueraDeRango _); [discriminate E|reflexivity]. }
    unfold dniEnRango, nuevoSocio. simpl.
    destruct (Js.parseInt (Form.dni formData)) as [|z]; [contradiction|].
    exists z. split; [reflexivity|]. now apply dniFueraDeRango_Int_false.
  - simpl. rewrite Forall_forall in *. intros s Hs.
    apply filter_In in Hs. apply Hinv. tauto.
Qed.

(** C3 (as the code has it). From a registry whose members all have a
    [dni] in 2000000..59999999 (the empty one, say), every sequence of
    trusted actions leads to such a registry: registrations whose [dni]
    text is numeric, removals, and hydrations from snapshots that are
    themselves in range. *)
Theorem dni_range_invariant :
  forall (actions : list Action) (socios : list Socio.t),
    Forall dniEnRango socios ->
    Forall trusted actions ->
    Forall dniEnRango (run actions socios).
Proof.
  induction actions as [|a actions IH]; intros socios Hinv Hall.
  - exact Hinv.
  - inversion Hall as [|a' l Ha Hrest]; subst. simpl.
    apply IH; [|exact Hrest]. now apply step_dniEnRango.
Qed.

Lemma dni_range_invariant_witness :
  Forall trusted [Register "u1" formEjemplo; Remove "zz";
                  Hydrate (Some [nuevoSocio "u0" formEjemplo]);
                  Register "u2" formSinNombre]
  /\ Forall dniEnRango
       (run [Register "u1" formEjemplo; Remove "zz";
             Hydrate (Some [nuevoSocio "u0" formEjemplo]);
             Register "u2" formSinNombre] [])
  /\ ids (run [Register "u1" formEjemplo; Remove "zz";
               Hydrate (Some [nuevoSocio "u0" formEjemplo]);
               Register "u2" formSinNombre] []) = ["u2"; "u0"].
Proof.
  assert (Hall : Forall trusted [Register "u1" formEjemplo; Remove "zz";
                                 Hydrate (Some [nuevoSocio "u0" formEjemplo]);
                                 Register "u2" formSinNombre]).
  { constructor; [simpl; discriminate|].
    constructor; [exact I|].
    constructor.
    - simpl. constructor; [|constructor].
      exists 30123456. split; [reflexivity|lia].
    - constructor; [simpl; discriminate|constructor]. }
  split; [exact Hall|]. split.
  - exact (dni_range_invariant _ [] (Forall_nil _) Hall).
  - reflexivity.
Defined.

(** C3, the claim as written fails: hydration installs the snapshot as it
    is, so a stored record with [dni] 1 enters the registry. *)
Lemma hydrate_breaks_dni_range :
  run [Hydrate (Some [socioDniUno])] [] = [socioDniUno]
  /\ ~ Forall dniEnRango (run [Hydrate (Some [socioDniUno])] []).
Proof.
  split; [reflexivity|].
  simpl. intros H. inversion H as [|s l [z [Hz Hr]] _]; subst.
  simpl in Hz. injection Hz as <-. lia.
Qed.

(** ** The report *)

Lemma sumImporte_filter_from (sede : string) (socios : list Socio.t) :
  forall acc : float,
    fold_left (fun a s => (a + Socio.importe s)%float)
      (filter (fun s => (Socio.sede s =? sede)%string) socios) acc
    = fold_left (fun a s => if (Socio.sede s =? sede)%string
                            then (a + Socio.importe s)%float else a)
        socios acc.
Proof.
  induction socios as [|s socios IH]; intros acc; simpl.
  - reflexivity.
  - destruct (Socio.sede s =? sede)%string; simpl; apply IH.
Qed.

Lemma length_filter_sede (sede : string) (socios : list Socio.t) :
  List.length (filter (fun s => (Socio.sede s =? sede)%string) socios)
  = count_occ string_dec (map Socio.sede socios) sede.
Proof.
  induction socios as [|s socios IH]; simpl.
  - reflexivity.
  - destruct (string_dec (Socio.sede s) sede) as [E|E].
    + apply String.eqb_eq in E. rewrite E. simpl. now rewrite IH.
    + apply String.eqb_neq in E. rewrite E. exact IH.
Qed.

Lemma filter_sede_none (sede : string) (socios : list Socio.t) :
  (forall s, In s socios -> Socio.sede s <> sede) ->
  filter (fun s => (Socio.sede s =? sede)%string) socios = [].
Proof.
  induction socios as [|s socios IH]; intros Hnone; simpl.
  - reflexivity.
  - assert (E : (Socio.sede s =? sede)%string = false).
    { apply String.eqb_neq. apply Hnone. now left. }
    rewrite E. apply IH. intros s' Hs'. apply Hnone. now right.
Qed.

Lemma sumImporte_map (socios : list Socio.t) :
  forall acc : float,
    fold_left (fun a s => (a + Socio.importe s)%float) socios acc
    = fold_left (fun a x => (a + x)%float) (map Socio.importe socios) acc.
Proof.
  induction socios as [|s socios IH]; intros acc; simpl; [reflexivity|apply IH].
Qed.

(** C7. [stats] returns the sum of the fees of all the members (added in
    registry order, from 0), their number, and one entry per location of
    [SEDES], in the order of [SEDES]: each entry counts the members of its
    location and adds their fees, and is 0/0 for a location without
    members.  On the empty registry everything is 0. *)
Theorem stats_summary :
  forall socios : list Socio.t,
    Stats.totalRecaudado (stats socios)
    = fold_left (fun a x => (a + x)%float) (map Socio.importe socios) 0%float
    /\ Stats.totalSocios (stats socios) = List.length socios
    /\ map Stats.name (Stats.sedeBreakdown (stats socios)) = SEDES
    /\ (forall e, In e (Stats.sedeBreakdown (stats socios)) ->
          Stats.count e = count_occ string_dec (map Socio.sede socios) (Stats.name e)
          /\ Stats.income e = incomeAt (Stats.name e) socios
          /\ ((forall s, In s socios -> Socio.sede s <> Stats.name e) ->
              Stats.count e = 0%nat /\ Stats.income e = 0%float))
    /\ stats []
       = Stats.mk 0 0 [Stats.mkSede "CBA" 0 0; Stats.mkSede "ROS" 0 0;
                       Stats.mkSede "MDP" 0 0; Stats.mkSede "BUE" 0 0].
Proof.
  intros socios.
  split; [|split; [|split; [|split]]].
  - simpl. unfold sumImporte. apply sumImporte_map.
  - reflexivity.
  - reflexivity.
  - intros e He. unfold stats in He. cbn [Stats.sedeBreakdown] in He.
    apply in_map_iff in He. destruct He as [sede [<- _]].
    simpl Stats.count. simpl Stats.income. simpl Stats.name.
    split; [apply length_filter_sede|]. split.
    + unfold sumImporte, incomeAt. apply sumImporte_filter_from.
    + intros Hnone. rewrite (filter_sede_none sede socios Hnone). split; reflexivity.
  - reflexivity.
Qed.

Lemma stats_summary_witness :
  In (Stats.mkSede "ROS" 0 0) (Stats.sedeBreakdown (stats padronEjemplo))
  /\ (forall s, In s padronEjemplo -> Socio.sede s <> "ROS")
  /\ Stats.count (Stats.mkSede "ROS" 0 0) = 0%nat
  /\ stats padronEjemplo
     = Stats.mk 51900 3 [Stats.mkSede "CBA" 2 30900; Stats.mkSede "ROS" 0 0;
                         Stats.mkSede "MDP" 1 21000; Stats.mkSede "BUE" 0 0].
Proof.
  assert (Hin : In (Stats.mkSede "ROS" 0 0) (Stats.sedeBreakdown (stats padronEjemplo))).
  { vm_compute. right; left. reflexivity. }
  assert (Hnone : forall s, In s padronEjemplo -> Socio.sede s <> "ROS").
  { intros s Hs. vm_compute in Hs.
    destruct Hs as [<-|[<-|[<-|[]]]]; discriminate. }
  split; [exact Hin|]. split; [exact Hnone|]. split.
  - exact (proj1 (proj2 (proj2 (proj1 (proj2 (proj2 (proj2
             (stats_summary padronEjemplo)))) _ Hin)) Hnone)).
  - vm_compute. reflexivity.
Defined.

(** ** Strings: [includes] and lowering *)

Lemma prefix_app_iff (a b : string) :
  String.prefix a b = true <-> exists post, b = a ++ post.
Proof.
  revert b. induction a as [|c a IH]; intros b.
  - destruct b; simpl; split; eauto.
  - destruct b as [|d b]; simpl.
    + split; [discriminate|]. intros [post H]. discriminate H.
    + destruct (ascii_dec c d) as [->|Hne].
      * rewrite IH. split; intros [post H]; exists post.
        -- now rewrite H.
        -- now injection H.
      * split; [discriminate|]. intros [post H]. injection H as H1 H2.
        now subst.
Qed.

Lemma includes_nil (sub : string) :
  Js.includes EmptyString sub = String.prefix sub EmptyString.
Proof. unfold Js.includes. apply orb_false_r. Qed.

Lemma includes_cons (c : ascii) (s sub : string) :
  Js.includes (String c s) sub
  = String.prefix sub (String c s) || Js.includes s sub.
Proof. reflexivity. Qed.

Lemma includes_Substring (s sub : string) :
  Js.includes s sub = true <-> Substring sub s.
Proof.
  split.
  - induction s as [|c s IH]; intros H.
    + rewrite includes_nil in H. apply prefix_app_iff in H.
      destruct H as [post H]. now exists EmptyString, post.
    + rewrite includes_cons in H.
      apply orb_true_iff in H. destruct H as [H|H].
      * apply prefix_app_iff in H. destruct H as [post H]. now exists EmptyString, post.
      * destruct (IH H) as [pre [post E]].
        exists (String c pre), post. simpl. now rewrite E.
  - intros [pre [post E]]. revert s E.
    induction pre as [|c pre IH]; intros s E.
    + assert (Hp : String.prefix sub s = true)
        by (apply prefix_app_iff; now exists post).
      destruct s; [rewrite includes_nil|rewrite includes_cons, Hp]; auto.
    + destruct s as [|d s]; [discriminate E|].
      simpl in E. injection E as _ E.
      rewrite includes_cons, (IH s E). apply orb_true_r.
Qed.

Lemma includes_empty (s : string) : Js.includes s EmptyString = true.
Proof. destruct s; reflexivity. Qed.

Lemma In_allAscii (c : ascii) : In c allAscii.
Proof.
  unfold allAscii. rewrite <- (ascii_nat_embedding c).
  apply in_map, in_seq. pose proof (nat_ascii_bounded c). lia.
Qed.

Lemma lowerChar_plain (c c' : ascii) :
  plainb c = true ->
  Ascii.eqb (Js.lowerChar c') c = Ascii.eqb c' c.
Proof.
  intros Hp.
  assert (Ht : lowerChar_plain_table = true) by (vm_compute; reflexivity).
  unfold lowerChar_plain_table in Ht.
  rewrite forallb_forall in Ht. specialize (Ht c (In_allAscii c)).
  rewrite forallb_forall in Ht. specialize (Ht c' (In_allAscii c')).
  rewrite Hp in Ht. simpl in Ht. now apply Bool.eqb_prop.
Qed.

Lemma toLowerCase_allPlain (s : string) :
  allPlainb s = true -> Js.toLowerCase s = s.
Proof.
  induction s as [|c s IH]; simpl; intros H; [reflexivity|].
  apply andb_true_iff in H. destruct H as [Hc Hs].
  rewrite (IH Hs). f_equal.
  apply Ascii.eqb_eq. rewrite (lowerChar_plain c c Hc). apply Ascii.eqb_refl.
Qed.

Lemma prefix_lower_plain (q s : string) :
  allPlainb s = true ->
  String.prefix (Js.toLowerCase q) s = String.prefix q s.
Proof.
  revert s. induction q as [|a q IH]; intros s Hs.
  - destruct s; reflexivity.
  - destruct s as [|b s]; [reflexivity|].
    simpl in Hs. apply andb_true_iff in Hs. destruct Hs as [Hb Hs].
    pose proof (lowerChar_plain b a Hb) as Hab.
    simpl.
    destruct (ascii_dec (Js.lowerChar a) b) as [E1|E1],
             (ascii_dec a b) as [E2|E2].
    + now apply IH.
    + apply Ascii.eqb_eq in E1. apply Ascii.eqb_neq in E2. congruence.
    + apply Ascii.eqb_neq in E1. apply Ascii.eqb_eq in E2. congruence.
    + reflexivity.
Qed.

Lemma includes_lower_plain (q s : string) :
  allPlainb s = true ->
  Js.includes s (Js.toLowerCase q) = Js.includes s q.
Proof.
  induction s as [|b s IH]; intros Hs.
  - rewrite !includes_nil. now apply prefix_lower_plain.
  - rewrite !includes_cons, (prefix_lower_plain q _ Hs).
    simpl in Hs. apply andb_true_iff in Hs. destruct Hs as [_ Hs].
    now rewrite (IH Hs).
Qed.

Lemma string_of_uint_allPlain (d : Decimal.uint) :
  allPlainb (NilEmpty.string_of_uint d) = true.
Proof. induction d; simpl; try reflexivity; exact IHd. Qed.

Lemma string_of_uint_NilZero_allPlain (d : Decimal.uint) :
  allPlainb (NilZero.string_of_uint d) = true.
Proof.
  destruct d; try reflexivity;
    match goal with
    | |- allPlainb (NilZero.string_of_uint ?u) = true =>
        exact (string_of_uint_allPlain u)
    end.
Qed.

Lemma decimal_allPlain (z : Z) : allPlainb (Js.decimal z) = true.
Proof.
  unfold Js.decimal, NilZero.string_of_int.
  destruct (Z.to_int z) as [d|d].
  - apply string_of_uint_NilZero_allPlain.
  - simpl. apply string_of_uint_NilZero_allPlain.
Qed.

(** ** The search *)

Section Kept_facts.
Context {A : Type} (P : A -> Prop).

Lemma filter_Kept (f : A -> bool) (l : list A) :
  (forall x, In x l -> (f x = true <-> P x)) ->
  Kept P l (filter f l).
Proof.
  induction l as [|x l IH]; intros Hf; simpl.
  - constructor.
  - assert (IH' : Kept P l (filter f l))
      by (apply IH; intros y Hy; apply Hf; now right).
    destruct (f x) eqn:E.
    + apply Kept_take; [|exact IH']. apply Hf; [now left|exact E].
    + apply Kept_skip; [|exact IH']. intros HP.
      apply Hf in HP; [congruence|now left].
Qed.

Lemma Kept_In (l l' : list A) :
  Kept P l l' ->
  forall x, In x l' <-> In x l /\ P x.
Proof.
  induction 1 as [|y l l' Hy _ IH|y l l' Hy _ IH]; intros x; simpl.
  - tauto.
  - rewrite IH. split.
    + intros [->|[Hin HP]]; auto.
    + intros [[->|Hin] HP]; auto.
  - rewrite IH. split.
    + intros [Hin HP]; auto.
    + intros [[->|Hin] HP]; [contradiction|auto].
Qed.
End Kept_facts.

Lemma search_test_Matches (query : string) (s : Socio.t) :
  numericDni s ->
  Js.includes (Js.toLowerCase (Socio.nombre s)) (Js.toLowerCase query)
  || Js.includes (Js.toString (Socio.dni s)) query = true
  <-> Matches query s.
Proof.
  unfold numericDni, Matches, CISubstring. intros Hnum.
  destruct (Socio.dni s) as [|z] eqn:Hdni; [contradiction|].
  simpl Js.toString.
  rewrite orb_true_iff, includes_Substring.
  rewrite <- (includes_lower_plain query _ (decimal_allPlain z)).
  rewrite includes_Substring.
  split.
  - intros [H|H]; [now left|right].
    exists z. split; [reflexivity|].
    now rewrite (toLowerCase_allPlain _ (decimal_allPlain z)).
  - intros [H|[z' [Hz' H]]]; [now left|right].
    injection Hz' as <-.
    now rewrite (toLowerCase_allPlain _ (decimal_allPlain z)) in H.
Qed.

Lemma search_test_MatchesAsTyped (query : string) (s : Socio.t) :
  Js.includes (Js.toLowerCase (Socio.nombre s)) (Js.toLowerCase query)
  || Js.includes (Js.toString (Socio.dni s)) query = true
  <-> MatchesAsTyped query s.
Proof.
  unfold MatchesAsTyped, CISubstring.
  now rewrite orb_true_iff, !includes_Substring.
Qed.

Lemma safeDni_numericDni (s : Socio.t) : safeDni s -> numericDni s.
Proof. intros [z [Hz _]]. unfold numericDni. rewrite Hz. discriminate. Qed.

(** C8 (as the code has it). [filteredSocios] keeps, in registry order,
    exactly the members in whose name the query occurs with case
    ignored, or in the text of whose [dni] the query occurs as typed.
    When every [dni] is an integer of magnitude below 2^53, which prints
    as its plain decimal digits, the second test is the same with case
    ignored: the rows are exactly the members in whose name, or in the
    decimal form of whose [dni], the query occurs with case ignored.  The
    empty query keeps every member. *)
Theorem search_keeps_matches :
  (forall (socios : list Socio.t) (searchQuery : string),
      Kept (MatchesAsTyped searchQuery) socios (filteredSocios socios searchQuery))
  /\ (forall (socios : list Socio.t) (searchQuery : string),
         Forall safeDni socios ->
         Kept (Matches searchQuery) socios (filteredSocios socios searchQuery)
         /\ (forall s, In s (filteredSocios socios searchQuery)
                       <-> In s socios /\ Matches searchQuery s))
  /\ (forall socios : list Socio.t, filteredSocios socios EmptyString = socios).
Proof.
  split; [|split].
  - intros socios searchQuery. unfold filteredSocios. apply filter_Kept.
    intros s _. apply search_test_MatchesAsTyped.
  - intros socios searchQuery Hsafe.
    assert (HK : Kept (Matches searchQuery) socios (filteredSocios socios searchQuery)).
    { unfold filteredSocios. apply filter_Kept. intros s Hs.
      apply search_test_Matches. apply safeDni_numericDni.
      rewrite Forall_forall in Hsafe. now apply Hsafe. }
    split; [exact HK|]. now apply Kept_In.
  - intros socios. unfold filteredSocios.
    apply forallb_filter_id. apply forallb_forall. intros s _.
    change (Js.toLowerCase EmptyString) with EmptyString.
    now rewrite includes_empty.
Qed.

Lemma search_keeps_matches_witness :
  Forall safeDni padronEjemplo
  /\ Kept (Matches "mARce") padronEjemplo (filteredSocios padronEjemplo "mARce")
  /\ map Socio.id padronEjemplo = ["u3"; "u2"; "u1"]
  /\ map Socio.id (filteredSocios padronEjemplo "mARce") = ["u3"; "u1"]
  /\ map Socio.id (filteredSocios padronEjemplo "1000") = ["u2"].
Proof.
  assert (Hsafe : Forall safeDni padronEjemplo).
  { repeat (constructor;
            [eexists; split; [reflexivity|vm_compute; reflexivity]|]).
    constructor. }
  split; [exact Hsafe|]. split.
  - exact (proj1 (proj1 (proj2 search_keeps_matches) padronEjemplo "mARce" Hsafe)).
  - repeat split; vm_compute; reflexivity.
Defined.

(** C8, the claim as written fails: a request sent with an empty [dni] is
    stored with [NaN], whose text is "NaN"; the query "nan" occurs in it
    with case ignored, yet the search shows the member for "NaN" only. *)
Lemma search_compares_id_text_as_typed :
  handleRegister "u1" formSinDni []
  = (Registered (nuevoSocio "u1" formSinDni), [nuevoSocio "u1" formSinDni])
  /\ Js.toString (Socio.dni (nuevoSocio "u1" formSinDni)) = "NaN"
  /\ MatchesAnyCase "nan" (nuevoSocio "u1" formSinDni)
  /\ filteredSocios [nuevoSocio "u1" formSinDni] "nan" = []
  /\ filteredSocios [nuevoSocio "u1" formSinDni] "NaN" = [nuevoSocio "u1" formSinDni].
Proof.
  split; [reflexivity|]. split; [reflexivity|]. split; [|split; reflexivity].
  right. exists EmptyString, EmptyString. reflexivity.
Qed.

(** ** Further properties of the registry *)

Lemma step_Register_rejected (uuid : string) (formData : Form.t) (socios : list Socio.t) :
  dniFueraDeRango (Js.parseInt (Form.dni formData)) = true
  \/ (MAX_SOCIOS <= List.length socios)%nat ->
  step socios (Register uuid formData) = socios.
Proof.
  intros H. unfold step.
  destruct (handleRegister_cases uuid formData socios) as [E|[E|[Hlt E]]];
    rewrite E; try reflexivity.
  exfalso. destruct H as [H|H]; [|lia].
  rewrite handleRegister_invalid in E by exact H. discriminate E.
Qed.

Lemma run_registros_cons (r : string * Form.t) (reqs : list (string * Form.t))
      (socios : list Socio.t) :
  run (registros (r :: reqs)) socios
  = run (registros reqs) (step socios (Register (fst r) (snd r))).
Proof. reflexivity. Qed.

Lemma run_registros_full (reqs : list (string * Form.t)) (socios : list Socio.t) :
  (MAX_SOCIOS <= List.length socios)%nat ->
  run (registros reqs) socios = socios.
Proof.
  intros Hfull. induction reqs as [|r reqs IH]; [reflexivity|].
  rewrite run_registros_cons.
  rewrite step_Register_rejected by (right; exact Hfull). exact IH.
Qed.

Lemma removeSocio_Kept (id : string) (socios : list Socio.t) :
  Kept (fun s => Socio.id s <> id) socios (snd (removeSocio id socios)).
Proof.
  simpl. apply filter_Kept. intros s _.
  rewrite negb_true_iff. apply String.eqb_neq.
Qed.

Lemma removeSocio_id_gone (id : string) (socios : list Socio.t) :
  ~ In id (ids (snd (removeSocio id socios))).
Proof.
  unfold ids. rewrite in_map_iff. intros [s [Hid Hin]].
  apply (Kept_In _ _ _ (removeSocio_Kept id socios)) in Hin.
  destruct Hin as [_ Hne]. now apply Hne.
Qed.

(** X1. A batch of submissions stores, newest first, the first submissions
    that pass the range test, as many as there are free places; the
    others change nothing. *)
Theorem run_registros_first_valid :
  forall (reqs : list (string * Form.t)) (socios : list Socio.t),
    run (registros reqs) socios
    = (rev (map nuevoDe (firstn (MAX_SOCIOS - List.length socios)
                                (filter pasaRango reqs)))
       ++ socios)%list.
Proof.
  induction reqs as [|r reqs IH]; intros socios.
  - simpl. now rewrite firstn_nil.
  - destruct (Nat.le_gt_cases MAX_SOCIOS (List.length socios)) as [Hfull|Hroom].
    + rewrite run_registros_full by exact Hfull.
      replace (MAX_SOCIOS - List.length socios)%nat with 0%nat by lia.
      reflexivity.
    + rewrite run_registros_cons.
      simpl filter. unfold pasaRango at 1.
      destruct (dniFueraDeRango (Js.parseInt (Form.dni (snd r)))) eqn:Hd; simpl negb.
      * rewrite step_Register_rejected by (left; exact Hd). apply IH.
      * unfold step. rewrite handleRegister_stored by assumption.
        simpl snd. rewrite IH. simpl List.length.
        replace (MAX_SOCIOS - List.length socios)%nat
          with (S (MAX_SOCIOS - S (List.length socios)))%nat by lia.
        simpl firstn. simpl map. simpl rev.
        rewrite <- app_assoc. reflexivity.
Qed.

(** X2. Storing a member under an id that the registry does not hold and
    then removing that id gives the registry back. *)
Theorem register_then_remove :
  forall (uuid : string) (formData : Form.t) (socios : list Socio.t),
    ~ In uuid (ids socios) ->
    snd (removeSocio uuid (snd (handleRegister uuid formData socios))) = socios.
Proof.
  intros uuid formData socios Hfresh.
  destruct (handleRegister_cases uuid formData socios) as [E|[E|[_ E]]];
    rewrite E; cbn [snd fst].
  - now apply removeSocio_absent.
  - now apply removeSocio_absent.
  - change (snd (removeSocio uuid (nuevoSocio uuid formData :: socios)))
      with (if negb (uuid =? uuid)%string
            then nuevoSocio uuid formData :: snd (removeSocio uuid socios)
            else snd (removeSocio uuid socios)).
    rewrite String.eqb_refl. simpl negb. cbv iota.
    now apply removeSocio_absent.
Qed.

Lemma register_then_remove_witness :
  ~ In "u9" (ids padronEjemplo)
  /\ fst (handleRegister "u9" formEjemplo padronEjemplo)
     = Registered (nuevoSocio "u9" formEjemplo)
  /\ snd (removeSocio "u9" (snd (handleRegister "u9" formEjemplo padronEjemplo)))
     = padronEjemplo.
Proof.
  assert (Hfresh : ~ In "u9" (ids padronEjemplo)).
  { vm_compute. intros [H|[H|[H|[]]]]; discriminate H. }
  split; [exact Hfresh|]. split; [reflexivity|].
  exact (register_then_remove "u9" formEjemplo padronEjemplo Hfresh).
Defined.

(** X4. Removing an id twice is the same as removing it once, and two
    removals give the same registry in either order. *)
Theorem remove_idempotent_and_commutes :
  forall (id1 id2 : string) (socios : list Socio.t),
    snd (removeSocio id1 (snd (removeSocio id1 socios))) = snd (removeSocio id1 socios)
    /\ snd (removeSocio id1 (snd (removeSocio id2 socios)))
       = snd (removeSocio id2 (snd (removeSocio id1 socios))).
Proof.
  intros id1 id2 socios. split.
  - apply removeSocio_absent. apply removeSocio_id_gone.
  - simpl. induction socios as [|s socios IH]; [reflexivity|].
    simpl.
    destruct (Socio.id s =? id1)%string eqn:E1,
             (Socio.id s =? id2)%string eqn:E2; simpl;
      rewrite ?E1, ?E2; simpl; now rewrite IH.
Qed.

Lemma removeSocio_NoDup (id : string) (socios : list Socio.t) :
  NoDup (ids socios) -> NoDup (ids (snd (removeSocio id socios))).
Proof.
  simpl. unfold ids.
  induction socios as [|s socios IH]; simpl; intros Hnd; [constructor|].
  inversion Hnd as [|x l Hnotin Hnd']; subst.
  destruct (negb (Socio.id s =? id)%string); simpl.
  - constructor; [|now apply IH].
    rewrite in_map_iff. intros [s' [Hid Hin]].
    apply filter_In in Hin. apply Hnotin.
    rewrite in_map_iff. exists s'. tauto.
  - now apply IH.
Qed.

(** X5. Pairwise distinct ids are kept by a registration whose id is not
    yet in the registry, whatever its outcome, and by every removal. *)
Theorem distinct_ids_preserved :
  forall (socios : list Socio.t),
    NoDup (ids socios) ->
    (forall uuid formData,
        ~ In uuid (ids socios) ->
        NoDup (ids (snd (handleRegister uuid formData socios))))
    /\ (forall id, NoDup (ids (snd (removeSocio id socios)))).
Proof.
  intros socios Hnd. split.
  - intros uuid formData Hfresh.
    destruct (handleRegister_cases uuid formData socios) as [E|[E|[_ E]]];
      rewrite E; cbn [snd]; try exact Hnd.
    unfold ids. simpl map. constructor; assumption.
  - intros id. now apply removeSocio_NoDup.
Qed.

Lemma distinct_ids_preserved_witness :
  NoDup (ids padronEjemplo)
  /\ ~ In "u9" (ids padronEjemplo)
  /\ NoDup (ids (snd (handleRegister "u9" formEjemplo padronEjemplo))).
Proof.
  assert (Hnd : NoDup (ids padronEjemplo))
    by (apply distinctb_NoDup; vm_compute; reflexivity).
  assert (Hfresh : ~ In "u9" (ids padronEjemplo)).
  { vm_compute. intros [H|[H|[H|[]]]]; discriminate H. }
  split; [exact Hnd|]. split; [exact Hfresh|].
  exact (proj1 (distinct_ids_preserved padronEjemplo Hnd) "u9" formEjemplo Hfresh).
Defined.

(** X8. A [dni] text that [parseInt] cannot read (no digit after the
    optional blanks and sign, the empty text among them) is never
    rejected as an invalid id: on a full registry the capacity alert is
    raised, otherwise the member is stored, with [NaN] as its [dni]. *)
Theorem unreadable_dni_passes_range_check :
  forall (uuid : string) (formData : Form.t) (socios : list Socio.t),
    Js.parseInt (Form.dni formData) = NaN ->
    fst (handleRegister uuid formData socios) <> Rejected InvalidNationalId
    /\ ((List.length socios < MAX_SOCIOS)%nat ->
        handleRegister uuid formData socios
        = (Registered (nuevoSocio uuid formData), nuevoSocio uuid formData :: socios)
        /\ Socio.dni (nuevoSocio uuid formData) = NaN).
Proof.
  intros uuid formData socios Hnan.
  assert (Hd : dniAceptado formData) by (unfold dniAceptado; now rewrite Hnan).
  split.
  - destruct (Nat.le_gt_cases MAX_SOCIOS (List.length socios)) as [Hfull|Hroom].
    + rewrite handleRegister_full by assumption. simpl. discriminate.
    + rewrite handleRegister_stored by assumption. simpl. discriminate.
  - intros Hroom. split; [now apply handleRegister_stored|exact Hnan].
Qed.

Lemma unreadable_dni_passes_range_check_witness :
  Js.parseInt (Form.dni (Form.mk "Ana" "abc" "30" "CBA" "BAS" "efectivo")) = NaN
  /\ fst (handleRegister "u1" (Form.mk "Ana" "abc" "30" "CBA" "BAS" "efectivo") [])
     <> Rejected InvalidNationalId.
Proof.
  split; [reflexivity|].
  exact (proj1 (unreadable_dni_passes_range_check "u1"
                  (Form.mk "Ana" "abc" "30" "CBA" "BAS" "efectivo") [] eq_refl)).
Defined.

(** ** Further properties of the fee *)

(** X6. Whatever the age, the plan id and the payment text, the fee is one
    of thirteen amounts: 0 or a catalogue price, possibly discounted,
    possibly surcharged.  It is never negative and never [NaN]. *)
Theorem calcularImporte_range :
  forall (edad : number) (membresiaId metodoPago : string),
    In (calcularImporte edad membresiaId metodoPago) importesPosibles
    /\ PrimFloat.leb 0 (calcularImporte edad membresiaId metodoPago) = true.
Proof.
  intros edad membresiaId metodoPago.
  unfold calcularImporte, MEMBRESIAS, find. cbn [Membresia.id Membresia.precio].
  destruct ("BAS" =? membresiaId)%string;
    [|destruct ("STD" =? membresiaId)%string;
      [|destruct ("PRE" =? membresiaId)%string]];
    destruct (num_ltb edad 18); destruct (metodoPago =? "tarjeta")%string;
    (split; [vm_compute; tauto|reflexivity]).
Qed.

(** X7. The fee shown on the form is the fee that a registration stores
    whenever the age text reads as a number.  When it does not (an empty
    age, say) the preview is computed for age 0 and carries the youth
    discount, while the stored fee, computed on [NaN], does not: for a
    catalogue plan the two differ. *)
Theorem preview_versus_stored_fee :
  forall (uuid : string) (formData : Form.t),
    (Js.parseInt (Form.edad formData) <> NaN ->
     importeProyectado formData = Socio.importe (nuevoSocio uuid formData))
    /\ (Js.parseInt (Form.edad formData) = NaN ->
        forall m, In m MEMBRESIAS -> Form.membresia formData = Membresia.id m ->
          importeProyectado formData
          = computeFee_spec (Membresia.precio m) true
              (Form.metodoPago formData =? "tarjeta")%string
          /\ Socio.importe (nuevoSocio uuid formData)
             = computeFee_spec (Membresia.precio m) false
                 (Form.metodoPago formData =? "tarjeta")%string
          /\ importeProyectado formData <> Socio.importe (nuevoSocio uuid formData)).
Proof.
  intros uuid formData. unfold importeProyectado, nuevoSocio. cbn [Socio.importe].
  split.
  - intros Hnum.
    destruct (Js.parseInt (Form.edad formData)) as [|z]; [contradiction|].
    unfold orZero, truthy. destruct (z =? 0) eqn:Ez; simpl; [|reflexivity].
    apply Z.eqb_eq in Ez. now subst.
  - intros Hnan m Hin Hm. rewrite Hnan, Hm.
    unfold orZero, truthy, calcularImporte, computeFee_spec, cardSurcharge, youthDiscount.
    simpl in Hin.
    destruct Hin as [<-|[<-|[<-|[]]]]; cbn [Membresia.id Membresia.precio];
      destruct (Form.metodoPago formData =? "tarjeta")%string;
      (split; [reflexivity|split; [reflexivity|]]);
      intros H;
      match type of H with
      | ?a = ?b => apply (f_equal (fun x => PrimFloat.ltb x b)) in H
      end;
      vm_compute in H; discriminate H.
Qed.

Lemma preview_versus_stored_fee_witness :
  Js.parseInt (Form.edad (Form.mk "Ana" "30123456" EmptyString "CBA" "PRE" "tarjeta")) = NaN
  /\ importeProyectado (Form.mk "Ana" "30123456" EmptyString "CBA" "PRE" "tarjeta")
     = 21000%float
  /\ Socio.importe (nuevoSocio "u1" (Form.mk "Ana" "30123456" EmptyString "CBA" "PRE" "tarjeta"))
     = 26250%float
  /\ importeProyectado (Form.mk "Ana" "30123456" EmptyString "CBA" "PRE" "tarjeta")
     <> Socio.importe (nuevoSocio "u1" (Form.mk "Ana" "30123456" EmptyString "CBA" "PRE" "tarjeta")).
Proof.
  split; [reflexivity|]. split; [reflexivity|]. split; [reflexivity|].
  exact (proj2 (proj2 (proj2 (preview_versus_stored_fee "u1"
           (Form.mk "Ana" "30123456" EmptyString "CBA" "PRE" "tarjeta"))
           eq_refl (Membresia.mk "PRE" 25000 "Premium")
           (or_intror (or_intror (or_introl eq_refl))) eq_refl))).
Defined.


(** ** Further properties of the report *)

Lemma sedeConocida_cases (s : Socio.t) :
  (Socio.sede s = "CBA" \/ Socio.sede s = "ROS" \/ Socio.sede s = "MDP"
   \/ Socio.sede s = "BUE") /\ sedeConocida s = true
  \/ (Socio.sede s <> "CBA" /\ Socio.sede s <> "ROS" /\ Socio.sede s <> "MDP"
      /\ Socio.sede s <> "BUE") /\ sedeConocida s = false.
Proof.
  unfold sedeConocida, SEDES, existsb.
  destruct (Socio.sede s =? "CBA")%string eqn:E1;
    [apply String.eqb_eq in E1; left; split; [tauto|reflexivity]|].
  destruct (Socio.sede s =? "ROS")%string eqn:E2;
    [apply String.eqb_eq in E2; left; split; [tauto|reflexivity]|].
  destruct (Socio.sede s =? "MDP")%string eqn:E3;
    [apply String.eqb_eq in E3; left; split; [tauto|reflexivity]|].
  destruct (Socio.sede s =? "BUE")%string eqn:E4;
    [apply String.eqb_eq in E4; left; split; [tauto|reflexivity]|].
  apply String.eqb_neq in E1, E2, E3, E4. right. split; [tauto|reflexivity].
Qed.

Lemma counts_partition (socios : list Socio.t) :
  (list_sum (map Stats.count (Stats.sedeBreakdown (stats socios)))
   + List.length (filter (fun s => negb (sedeConocida s)) socios)
   = List.length socios)%nat.
Proof.
  unfold stats, SEDES. cbn [Stats.sedeBreakdown map Stats.count list_sum].
  induction socios as [|s socios IH]; [reflexivity|].
  cbn [filter].
  destruct (sedeConocida_cases s) as [[Hs Hk]|[[H1 [H2 [H3 H4]]] Hk]]; rewrite Hk.
  - destruct Hs as [E|[E|[E|E]]]; rewrite E; simpl; simpl in IH; lia.
  - apply String.eqb_neq in H1, H2, H3, H4. rewrite H1, H2, H3, H4.
    simpl. simpl in IH. lia.
Qed.

(** X9. The per-location counts add up to the number of members whose
    [sede] is one of [SEDES]: a member with any other [sede] (which
    neither the handler nor hydration excludes) is counted in the total
    and in no location.  When every member has a listed [sede] the
    counts add up to [totalSocios]. *)
Theorem stats_counts_partition :
  forall socios : list Socio.t,
    (list_sum (map Stats.count (Stats.sedeBreakdown (stats socios)))
     + List.length (filter (fun s => negb (sedeConocida s)) socios)
     = Stats.totalSocios (stats socios))%nat
    /\ (forallb sedeConocida socios = true ->
        list_sum (map Stats.count (Stats.sedeBreakdown (stats socios)))
        = Stats.totalSocios (stats socios)).
Proof.
  intros socios. split.
  - apply counts_partition.
  - intros Hall. pose proof (counts_partition socios) as Hp.
    assert (Hnone : filter (fun s => negb (sedeConocida s)) socios = []).
    { clear Hp. induction socios as [|s socios IH]; [reflexivity|].
      simpl in Hall. apply andb_true_iff in Hall. destruct Hall as [Hs Hrest].
      simpl. rewrite Hs. simpl. now apply IH. }
    rewrite Hnone in Hp. cbn [List.length] in Hp. rewrite Nat.add_0_r in Hp. exact Hp.
Qed.

Lemma stats_counts_partition_witness :
  forallb sedeConocida padronEjemplo = true
  /\ list_sum (map Stats.count (Stats.sedeBreakdown (stats padronEjemplo))) = 3%nat.
Proof.
  assert (Hall : forallb sedeConocida padronEjemplo = true) by (vm_compute; reflexivity).
  split; [exact Hall|].
  rewrite (proj2 (stats_counts_partition padronEjemplo) Hall).
  vm_compute. reflexivity.
Defined.

(** ** Further properties of the search *)

Lemma Substring_refl (s : string) : Substring s s.
Proof.
  exists EmptyString, EmptyString. simpl.
  induction s as [|c s IH]; simpl; [reflexivity|now rewrite <- IH].
Qed.

Lemma searchTest_iff (q : string) (s : Socio.t) :
  searchTest q s = true
  <-> Substring (Js.toLowerCase q) (Js.toLowerCase (Socio.nombre s))
      \/ Substring q (Js.toString (Socio.dni s)).
Proof.
  unfold searchTest. now rewrite orb_true_iff, !includes_Substring.
Qed.

Lemma filteredSocios_filter (socios : list Socio.t) (q : string) :
  filteredSocios socios q = filter (searchTest q) socios.
Proof. reflexivity. Qed.



(** X10. On members whose [dni] is an integer of magnitude below 2^53
    (it prints as its plain decimal digits), two queries that lower to
    the same text select the same rows. *)
Theorem search_ignores_query_case :
  forall (socios : list Socio.t) (q q' : string),
    Forall safeDni socios ->
    Js.toLowerCase q = Js.toLowerCase q' ->
    filteredSocios socios q = filteredSocios socios q'.
Proof.
  intros socios q q' Hsafe Hq.
  rewrite !filteredSocios_filter. apply filter_ext_in. intros s Hs.
  rewrite Forall_forall in Hsafe.
  pose proof (safeDni_numericDni s (Hsafe s Hs)) as Hnum.
  pose proof (search_test_Matches q s Hnum) as H1.
  pose proof (search_test_Matches q' s Hnum) as H2.
  fold (searchTest q s) in H1. fold (searchTest q' s) in H2.
  assert (HM : Matches q s <-> Matches q' s).
  { unfold Matches, CISubstring. rewrite Hq. reflexivity. }
  destruct (searchTest q s), (searchTest q' s); try reflexivity.
  - symmetry. apply H2, HM, H1. reflexivity.
  - apply H1, HM, H2. reflexivity.
Qed.

Lemma search_ignores_query_case_witness :
  Forall safeDni padronEjemplo
  /\ Js.toLowerCase "mARce" = Js.toLowerCase "MARCE"
  /\ filteredSocios padronEjemplo "mARce" = filteredSocios padronEjemplo "MARCE".
Proof.
  assert (Hsafe : Forall safeDni padronEjemplo).
  { repeat (constructor;
            [eexists; split; [reflexivity|vm_compute; reflexivity]|]).
    constructor. }
  split; [exact Hsafe|]. split; [reflexivity|].
  exact (search_ignores_query_case padronEjemplo "mARce" "MARCE" Hsafe eq_refl).
Defined.

(** ** [parseInt] on the decimal form of a number *)

Lemma digitValue_digitb (c : ascii) :
  match Js.digitValue 10 c with
  | Some _ => digitb c = true
  | None => digitb c = false
  end.
Proof.
  unfold digitb, Js.digitValue.
  set (m := nat_of_ascii c).
  change (10 =? 16) with false. cbn [andb].
  destruct ((48 <=? Z.of_nat m) && (Z.of_nat m <=? 57)) eqn:E.
  - apply andb_true_iff in E. destruct E as [E1 E2].
    apply Z.leb_le in E1, E2.
    apply andb_true_iff. split; apply Nat.leb_le; lia.
  - apply andb_false_iff in E. apply andb_false_iff.
    destruct E as [E|E]; apply Z.leb_gt in E; [left|right]; apply Nat.leb_gt; lia.
Qed.

Lemma readDigits_stop (rest : string) (acc : option Z) :
  stopsDigits rest = true -> Js.readDigits 10 rest acc = acc.
Proof.
  destruct rest as [|c rest]; [reflexivity|]. cbn [stopsDigits Js.readDigits].
  intros H. apply andb_true_iff in H. destruct H as [H _].
  apply andb_true_iff in H. destruct H as [Hd _]. apply negb_true_iff in Hd.
  pose proof (digitValue_digitb c) as Hc.
  destruct (Js.digitValue 10 c); [congruence|reflexivity].
Qed.

Lemma digitsAfter_step (a k : Z) (d dk : Decimal.uint) :
  Unsigned.usize dk = N.succ (Unsigned.usize d) ->
  Unsigned.of_lu (Decimal.rev dk)
  = (Unsigned.of_lu (Decimal.rev d) + Z.to_N k * 10 ^ Unsigned.usize d)%N ->
  0 <= k ->
  digitsAfter (10 * a + k) d = digitsAfter a dk.
Proof.
  intros Hsize Hval Hk. unfold digitsAfter. rewrite Hsize, Hval.
  rewrite N2Z.inj_succ, Z.pow_succ_r by apply N2Z.is_nonneg.
  rewrite N2Z.inj_add, N2Z.inj_mul, N2Z.inj_pow, Z2N.id by exact Hk.
  change (Z.of_N 10) with 10. ring.
Qed.

Lemma readDigits_uint (d : Decimal.uint) :
  forall (a : Z) (rest : string),
    stopsDigits rest = true ->
    Js.readDigits 10 (NilEmpty.string_of_uint d ++ rest) (Some a)
    = Some (digitsAfter a d).
Proof.
  induction d; intros a rest Hrest;
    try (cbn [NilEmpty.string_of_uint append];
         match goal with
         | |- Js.readDigits 10 (String ?c ?s) (Some a) = Some (digitsAfter a ?dk) =>
             let k := eval vm_compute in
                        (match Js.digitValue 10 c with Some k => k | None => 0 end) in
             change (Js.readDigits 10 (String c s) (Some a))
               with (Js.readDigits 10 s (Some (10 * a + k)));
             rewrite (IHd _ rest Hrest); f_equal;
             apply digitsAfter_step;
             [reflexivity
             |unfold Decimal.rev; cbn [Decimal.revapp];
              rewrite Unsigned.of_lu_revapp; reflexivity
             |lia]
         end).
  simpl. rewrite (readDigits_stop rest _ Hrest). f_equal.
  unfold digitsAfter. simpl. lia.
Qed.

Ltac bits c := destruct c as [[] [] [] [] [] [] [] []].

Lemma parseInt_digit_lead (c0 : ascii) (t : string) :
  digitb c0 = true ->
  match t with
  | String c _ => Ascii.eqb c "x" = false /\ Ascii.eqb c "X" = false
  | EmptyString => True
  end ->
  Js.parseInt (String c0 t)
  = match Js.readDigits 10 (String c0 t) None with
    | Some v => Int v
    | None => NaN
    end.
Proof.
  intros Hd Hx.
  assert (Hone : forall o : option Z,
             match o with Some m => Int (1 * m) | None => NaN end
             = match o with Some v => Int v | None => NaN end).
  { intros [m|]; [|reflexivity]. apply f_equal. lia. }
  bits c0; vm_compute in Hd; try discriminate Hd; clear Hd;
    try (rewrite <- Hone; reflexivity).
  destruct t as [|c1 t']; [reflexivity|].
  destruct Hx as [Hx Hx'].
  bits c1; vm_compute in Hx, Hx'; try discriminate Hx; try discriminate Hx';
    rewrite <- Hone; reflexivity.
Qed.

Lemma parseInt_minus_digit_lead (c0 : ascii) (t : string) :
  digitb c0 = true ->
  match t with
  | String c _ => Ascii.eqb c "x" = false /\ Ascii.eqb c "X" = false
  | EmptyString => True
  end ->
  Js.parseInt (String "-" (String c0 t))
  = match Js.readDigits 10 (String c0 t) None with
    | Some v => Int (- v)
    | None => NaN
    end.
Proof.
  intros Hd Hx.
  assert (Hneg : forall o : option Z,
             match o with Some m => Int (-1 * m) | None => NaN end
             = match o with Some v => Int (- v) | None => NaN end).
  { intros [m|]; [|reflexivity]. apply f_equal. lia. }
  bits c0; vm_compute in Hd; try discriminate Hd; clear Hd;
    try (rewrite <- Hneg; reflexivity).
  destruct t as [|c1 t']; [reflexivity|].
  destruct Hx as [Hx Hx'].
  bits c1; vm_compute in Hx, Hx'; try discriminate Hx; try discriminate Hx';
    rewrite <- Hneg; reflexivity.
Qed.

Lemma string_of_uint_lead (d : Decimal.uint) (rest : string) :
  d <> Decimal.Nil ->
  stopsDigits rest = true ->
  exists c0 t,
    NilEmpty.string_of_uint d ++ rest = String c0 t
    /\ digitb c0 = true
    /\ match t with
       | String c _ => Ascii.eqb c "x" = false /\ Ascii.eqb c "X" = false
       | EmptyString => True
       end.
Proof.
  intros Hd Hrest.
  assert (Ht : forall d', match NilEmpty.string_of_uint d' ++ rest with
                          | String c _ => Ascii.eqb c "x" = false /\ Ascii.eqb c "X" = false
                          | EmptyString => True
                          end).
  { intros d'. destruct d'; cbn [NilEmpty.string_of_uint append];
      try (split; reflexivity).
    destruct rest as [|c rest']; [exact I|].
    simpl in Hrest. apply andb_true_iff in Hrest. destruct Hrest as [H Hx'].
    apply andb_true_iff in H. destruct H as [_ Hx].
    apply negb_true_iff in Hx, Hx'. now split. }
  destruct d; try contradiction; cbn [NilEmpty.string_of_uint append];
    eexists; eexists; (split; [reflexivity|split; [reflexivity|apply Ht]]).
Qed.

Lemma readDigits_None_lead (c0 : ascii) (t : string) :
  digitb c0 = true ->
  Js.readDigits 10 (String c0 t) None = Js.readDigits 10 (String c0 t) (Some 0).
Proof.
  intros Hd. cbn [Js.readDigits].
  pose proof (digitValue_digitb c0) as Hc.
  destruct (Js.digitValue 10 c0); [reflexivity|congruence].
Qed.

Lemma string_of_uint_NilZero (d : Decimal.uint) :
  d <> Decimal.Nil ->
  NilZero.string_of_uint d = NilEmpty.string_of_uint d.
Proof. destruct d; [contradiction|reflexivity..]. Qed.

(** [parseInt] reads back the decimal form of an integer, whatever follows
    it once the digits stop. *)
Lemma parseInt_decimal (z : Z) (rest : string) :
  stopsDigits rest = true ->
  Js.parseInt (Js.decimal z ++ rest) = Int z.
Proof.
  intros Hrest.
  assert (Hu : forall d, d <> Decimal.Nil ->
             Js.parseInt (NilEmpty.string_of_uint d ++ rest)
             = Int (Z.of_N (Pos.of_uint d))
             /\ Js.parseInt (String "-" (NilEmpty.string_of_uint d ++ rest))
                = Int (- Z.of_N (Pos.of_uint d))).
  { intros d Hd.
    destruct (string_of_uint_lead d rest Hd Hrest) as [c0 [t [E [Hc0 Ht]]]].
    pose proof (readDigits_uint d 0 rest Hrest) as Hr.
    rewrite E in Hr |- *.
    rewrite (parseInt_digit_lead c0 t Hc0 Ht),
            (parseInt_minus_digit_lead c0 t Hc0 Ht),
            (readDigits_None_lead c0 t Hc0), Hr.
    unfold digitsAfter. rewrite Unsigned.of_uint_alt. simpl. split; reflexivity. }
  unfold Js.decimal. destruct z as [|p|p]; cbn [Z.to_int NilZero.string_of_int].
  - change (NilZero.string_of_uint Decimal.zero)
      with (NilEmpty.string_of_uint (Decimal.D0 Decimal.Nil)).
    assert (H0 : Decimal.D0 Decimal.Nil <> Decimal.Nil) by discriminate.
    rewrite (proj1 (Hu _ H0)). reflexivity.
  - assert (Hp : Pos.to_uint p <> Decimal.Nil) by apply Unsigned.to_uint_nonnil.
    rewrite (string_of_uint_NilZero _ Hp).
    rewrite (proj1 (Hu _ Hp)), Unsigned.of_to. reflexivity.
  - assert (Hp : Pos.to_uint p <> Decimal.Nil) by apply Unsigned.to_uint_nonnil.
    rewrite (string_of_uint_NilZero _ Hp).
    cbn [append].
    rewrite (proj2 (Hu _ Hp)), Unsigned.of_to. reflexivity.
Qed.

Lemma append_nil_r (s : string) : s ++ EmptyString = s.
Proof. induction s as [|c s IH]; simpl; [reflexivity|now rewrite IH]. Qed.

Lemma handleRegister_invalid_iff (uuid : string) (formData : Form.t) (socios : list Socio.t) :
  fst (handleRegister uuid formData socios) = Rejected InvalidNationalId
  <-> dniFueraDeRango (Js.parseInt (Form.dni formData)) = true.
Proof.
  unfold handleRegister.
  destruct (dniFueraDeRango _).
  - simpl. split; reflexivity.
  - destruct (MAX_SOCIOS <=? List.length socios)%nat; simpl; split; discriminate.
Qed.

(** X14. The [dni] text is read up to its first character that is not a
    digit: when the text is the decimal form of [z] followed by nothing,
    or by text starting with a character other than a digit, [x] and
    [X], the handler works on [z]; it rejects the request as invalid
    exactly when [z] is out of range and otherwise stores [z]. *)
Theorem dni_text_read_up_to_first_non_digit :
  forall (uuid : string) (formData : Form.t) (z : Z) (rest : string),
    Form.dni formData = Js.decimal z ++ rest ->
    stopsDigits rest = true ->
    Js.parseInt (Form.dni formData) = Int z
    /\ Socio.dni (nuevoSocio uuid formData) = Int z
    /\ forall socios,
        (fst (handleRegister uuid formData socios) = Rejected InvalidNationalId
         <-> z < 2000000 \/ 59999999 < z)
        /\ (2000000 <= z <= 59999999 ->
            (List.length socios < MAX_SOCIOS)%nat ->
            handleRegister uuid formData socios
            = (Registered (nuevoSocio uuid formData),
               nuevoSocio uuid formData :: socios)).
Proof.
  intros uuid formData z rest Htext Hrest.
  assert (Hp : Js.parseInt (Form.dni formData) = Int z)
    by (rewrite Htext; now apply parseInt_decimal).
  split; [exact Hp|]. split; [exact Hp|].
  intros socios. split.
  - rewrite handleRegister_invalid_iff, Hp. apply dniFueraDeRango_Int.
  - intros Hz Hroom. apply handleRegister_stored; [|exact Hroom].
    unfold dniAceptado. rewrite Hp. now apply dniFueraDeRango_Int_false.
Qed.

Lemma dni_text_read_up_to_first_non_digit_witness :
  Form.dni (Form.mk "Ana" "30123456,5 aprox" "30" "CBA" "BAS" "efectivo")
  = Js.decimal 30123456 ++ ",5 aprox"
  /\ stopsDigits ",5 aprox" = true
  /\ Js.parseInt "30123456,5 aprox" = Int 30123456.
Proof.
  split; [reflexivity|]. split; [reflexivity|].
  exact (proj1 (dni_text_read_up_to_first_non_digit "u1"
                  (Form.mk "Ana" "30123456,5 aprox" "30" "CBA" "BAS" "efectivo")
                  30123456 ",5 aprox" eq_refl eq_refl)).
Defined.

(** X13. A request whose [dni] text is the plain decimal form of a number
    in range is stored with that number as its [dni] when there is room,
    and searching the same text then shows the new member as the first
    row, followed by the rows the search gave before. *)
Theorem registered_member_found_by_dni_text :
  forall (uuid : string) (formData : Form.t) (socios : list Socio.t) (z : Z),
    Form.dni formData = Js.decimal z ->
    2000000 <= z <= 59999999 ->
    (List.length socios < MAX_SOCIOS)%nat ->
    handleRegister uuid formData socios
    = (Registered (nuevoSocio uuid formData), nuevoSocio uuid formData :: socios)
    /\ Socio.dni (nuevoSocio uuid formData) = Int z
    /\ filteredSocios (snd (handleRegister uuid formData socios)) (Form.dni formData)
       = nuevoSocio uuid formData :: filteredSocios socios (Form.dni formData).
Proof.
  intros uuid formData socios z Htext Hz Hroom.
  assert (Hp : Js.parseInt (Form.dni formData) = Int z).
  { rewrite Htext, <- (append_nil_r (Js.decimal z)). now apply parseInt_decimal. }
  assert (Hs : handleRegister uuid formData socios
               = (Registered (nuevoSocio uuid formData),
                  nuevoSocio uuid formData :: socios)).
  { apply handleRegister_stored; [|exact Hroom].
    unfold dniAceptado. rewrite Hp. now apply dniFueraDeRango_Int_false. }
  split; [exact Hs|]. split; [exact Hp|].
  rewrite Hs. cbn [snd]. rewrite !filteredSocios_filter. cbn [filter].
  assert (Ht : searchTest (Form.dni formData) (nuevoSocio uuid formData) = true).
  { apply searchTest_iff. right.
    unfold nuevoSocio. cbn [Socio.dni]. rewrite Hp, Htext. cbn [Js.toString].
    apply Substring_refl. }
  now rewrite Ht.
Qed.

Lemma registered_member_found_by_dni_text_witness :
  Form.dni formEjemplo = Js.decimal 30123456
  /\ 2000000 <= 30123456 <= 59999999
  /\ (List.length padronEjemplo < MAX_SOCIOS)%nat
  /\ filteredSocios (snd (handleRegister "u4" formEjemplo padronEjemplo)) "30123456"
     = nuevoSocio "u4" formEjemplo :: filteredSocios padronEjemplo "30123456".
Proof.
  assert (Ht : Form.dni formEjemplo = Js.decimal 30123456) by reflexivity.
  assert (Hz : 2000000 <= 30123456 <= 59999999) by lia.
  assert (Hroom : (List.length padronEjemplo < MAX_SOCIOS)%nat) by (vm_compute; lia).
  split; [exact Ht|]. split; [exact Hz|]. split; [exact Hroom|].
  exact (proj2 (proj2 (registered_member_found_by_dni_text "u4" formEjemplo
                         padronEjemplo 30123456 Ht Hz Hroom))).
Defined.
